(** * Media renaming tools: a shallow embedding and its properties

    Two command-line tools are modelled here:
    - [create_is.py], the metadata-driven renamer ([Module CreateIs]);
    - [plex_converter.py], the filename sanitizer ([Module PlexConverter]).

    Python strings are modelled as lists of characters with code points
    0..255 ([list ascii]); on that range the regular-expression class [\d]
    is exactly [0-9] and [str.isspace] is the table of [Py.isspace]. *)

From Stdlib Require Import ZArith List Ascii String Lia Bool.
From Stdlib Require Import DecimalString DecimalPos DecimalZ.
From stdpp Require Import base gmap strings list.
Import ListNotations.

Local Open Scope Z_scope.

Abbreviation str := (list ascii).

(** A string literal as a list of characters. *)
Definition lit (s : string) : str := list_ascii_of_string s.

(* ===================================================================== *)
(** ** Python primitives used by the two tools *)
(* ===================================================================== *)

Module Py.

(** The double quote character (code 34). *)
Definition dquote : ascii := ascii_of_nat 34.

Definition code (c : ascii) : N := N_of_ascii c.

(** [c in chars] for a string of candidate characters. *)
Definition char_in (chars : str) (c : ascii) : bool :=
  existsb (Ascii.eqb c) chars.

(** [str.isspace] on one character: tab, LF, VT, FF, CR, the separators
    0x1c..0x1f, space, NEL (0x85) and no-break space (0xa0). *)
Definition isspace (c : ascii) : bool :=
  let n := code c in
  ((9 <=? n) && (n <=? 13) || (28 <=? n) && (n <=? 32)
   || (n =? 133) || (n =? 160))%N.

(** The class [\d]. *)
Definition isdigit (c : ascii) : bool :=
  let n := code c in ((48 <=? n) && (n <=? 57))%N.

(** [s.lstrip(...)]: drop the longest prefix of characters satisfying [p]. *)
Fixpoint lstrip (p : ascii -> bool) (s : str) : str :=
  match s with
  | [] => []
  | c :: s' => if p c then lstrip p s' else s
  end.

(** [s.rstrip(...)]: drop the longest suffix of characters satisfying [p]. *)
Fixpoint rstrip (p : ascii -> bool) (s : str) : str :=
  match s with
  | [] => []
  | c :: s' =>
      match rstrip p s' with
      | [] => if p c then [] else [c]
      | r => c :: r
      end
  end.

(** [s.strip(chars)] and [s.strip()]. *)
Definition strip_chars (p : ascii -> bool) (s : str) : str :=
  rstrip p (lstrip p s).

Definition strip (s : str) : str := strip_chars isspace s.

(** [s.replace(a, b)] for single characters [a] and [b]. *)
Definition replace (a b : ascii) (s : str) : str :=
  map (fun c => if Ascii.eqb c a then b else c) s.

(** [re.sub(r'[...]', repl, s)] for a one-character class [p]: every
    character of the class is replaced by [repl]. *)
Definition re_sub_class (p : ascii -> bool) (repl : str) (s : str) : str :=
  flat_map (fun c => if p c then repl else [c]) s.

(** [re.sub(r'c+', repl, s)]: every maximal run of characters satisfying
    [p] is replaced by one [repl]. A character of a run is dropped while
    the run goes on, and the last one of the run emits [repl]. *)
Fixpoint re_sub_plus (p : ascii -> bool) (repl : str) (s : str) : str :=
  match s with
  | [] => []
  | c :: s' =>
      if p c then
        match s' with
        | d :: _ => if p d then re_sub_plus p repl s'
                    else repl ++ re_sub_plus p repl s'
        | [] => repl
        end
      else c :: re_sub_plus p repl s'
  end.

(** [s.split(sep)] for a one-character separator. *)
Fixpoint split (sep : ascii) (s : str) : list str :=
  match s with
  | [] => [[]]
  | c :: s' =>
      if Ascii.eqb c sep then [] :: split sep s'
      else match split sep s' with
           | w :: ws => (c :: w) :: ws
           | [] => [[c]]
           end
  end.

(** [s.rfind(c)]: the index of the last occurrence of [c], or -1. The
    accumulator [i] is the index of the head of [s]. *)
Fixpoint rfind_from (c : ascii) (s : str) (i : Z) : Z :=
  match s with
  | [] => -1
  | x :: s' =>
      let r := rfind_from c s' (i + 1) in
      if 0 <=? r then r else if Ascii.eqb x c then i else -1
  end.

Definition rfind (c : ascii) (s : str) : Z := rfind_from c s 0.

Definition len (s : str) : Z := Z.of_nat (length s).

(** [pathlib.PurePosixPath(s).name]: the last component that is neither
    empty nor a single dot, or the empty string when there is none. *)
Definition path_parts (s : str) : list str :=
  filter (fun x : str => x <> [] /\ x <> lit ".") (split "/"%char s).

Definition path_name (s : str) : str := List.last (path_parts s) [].

(** [PurePath.stem] and [PurePath.suffix] of a final component [name]:
    the name is cut at its last dot unless that dot is the first or the
    last character. *)
Definition name_stem (name : str) : str :=
  let i := rfind "."%char name in
  if (0 <? i) && (i <? len name - 1) then take (Z.to_nat i) name else name.

Definition name_suffix (name : str) : str :=
  let i := rfind "."%char name in
  if (0 <? i) && (i <? len name - 1) then drop (Z.to_nat i) name else [].

(** [Path(filename).stem] *)
Definition path_stem (filename : str) : str := name_stem (path_name filename).

(** The value of one decimal digit. *)
Definition digit_value (c : ascii) : Z := Z.of_N (code c) - 48.

(** [int(s)] on a string of decimal digits; [None] stands for the
    [ValueError] raised on any other character or on the empty string. *)
Fixpoint int_digits (acc : Z) (s : str) : option Z :=
  match s with
  | [] => Some acc
  | c :: s' => if isdigit c then int_digits (10 * acc + digit_value c) s'
               else None
  end.

Definition int (s : str) : option Z :=
  match s with
  | [] => None
  | _ => int_digits 0 s
  end.

(** [str(n)] for an integer: its decimal rendering. *)
Definition str_of_int (n : Z) : str :=
  list_ascii_of_string (NilZero.string_of_int (Z.to_int n)).

(** [c.lower()] on code points 0..255: the letters A..Z and the capital
    letters 0xC0..0xDE other than the multiplication sign 0xD7. *)
Definition lower_char (c : ascii) : ascii :=
  let n := code c in
  if ((65 <=? n) && (n <=? 90)
      || (192 <=? n) && (n <=? 222) && negb (n =? 215))%N
  then ascii_of_N (n + 32) else c.

Definition lower (s : str) : str := map lower_char s.

End Py.

(* ===================================================================== *)
(** ** The file system seen by the tools *)
(* ===================================================================== *)

Module Os.

(** A path is the pair of its parent directory and its final component;
    [parent / name] builds one. Only regular files are modelled: the file
    system maps the path of each file to the identity of its content. *)
Abbreviation path := (str * str)%type.
Abbreviation fs := (gmap (str * str) nat).

Definition parent (p : path) : str := fst p.
Definition name (p : path) : str := snd p.
Definition suffix (p : path) : str := Py.name_suffix (name p).
Definition join (dir : str) (new_name : str) : path := (dir, new_name).

Definition exists_ (files : fs) (p : path) : bool := bool_decide (is_Some (files !! p)).
Definition is_file (files : fs) (p : path) : bool := bool_decide (is_Some (files !! p)).

(** [os.rename] differs between platforms when the target exists: POSIX
    replaces the target silently, Windows raises [FileExistsError]. *)
Inductive flavour := Posix | Windows.

(** [os.rename(src, dst)]; [None] stands for the [OSError] raised. *)
Definition rename (fl : flavour) (src dst : path) (files : fs) : option fs :=
  match files !! src with
  | None => None
  | Some content =>
      if bool_decide (src = dst) then Some files
      else match files !! dst, fl with
           | Some _, Windows => None
           | _, _ => Some (<[dst := content]> (delete src files))
           end
  end.

End Os.

(* ===================================================================== *)
(** ** create_is.py: the metadata-driven renamer *)
(* ===================================================================== *)

Module CreateIs.

(** *** Title and year extraction *)

(** The two delimiter classes of [year_pattern]. *)
Definition open_delim (c : ascii) : bool := Py.char_in (lit "(.[ ") c.
Definition close_delim (c : ascii) : bool := Py.char_in (lit ").] ") c.

(** [year_pattern] matched at the head of [s]: a delimiter, 19 or 20, two
    digits, a delimiter. A match is always six characters long. *)
Definition year_pattern_at (s : str) : bool :=
  match s with
  | o :: a :: b :: c :: d :: e :: _ =>
      open_delim o
      && (Ascii.eqb a "1" && Ascii.eqb b "9" || Ascii.eqb a "2" && Ascii.eqb b "0")
      && Py.isdigit c && Py.isdigit d && close_delim e
  | _ => false
  end.

(** The pattern [\d{4}] matched at the head of [s]. *)
Definition four_digits_at (s : str) : bool :=
  match s with
  | a :: b :: c :: d :: _ =>
      Py.isdigit a && Py.isdigit b && Py.isdigit c && Py.isdigit d
  | _ => false
  end.

(** [re.search] for a pattern given by its test at the head of a string:
    the start of the leftmost match. [i] is the index of the head of [s]. *)
Fixpoint re_search_from (at_head : str -> bool) (s : str) (i : nat) : option nat :=
  if at_head s then Some i
  else match s with
       | [] => None
       | _ :: s' => re_search_from at_head s' (S i)
       end.

Definition re_search (at_head : str -> bool) (s : str) : option nat :=
  re_search_from at_head s 0%nat.

(** [extract_title_year]; the outer [None] stands for an exception (the
    [.group()] of a failed inner search, or [int] raising). *)
Definition extract_title_year (filename : str) : option (str * option Z) :=
  let stem := Py.path_stem filename in
  match re_search year_pattern_at stem with
  | Some title_start =>
      let title_end := (title_start + 6)%nat in
      let group := take 6 (drop title_start stem) in
      match re_search four_digits_at group with
      | Some k =>
          let year_str := take 4 (drop k group) in
          match Py.int year_str with
          | Some year =>
              let title := take title_start stem ++ drop title_end stem in
              let title := Py.strip (Py.replace "." " " title) in
              Some (title, Some year)
          | None => None
          end
      | None => None
      end
  | None => Some (Py.strip (Py.replace "." " " stem), None)
  end.

(** *** Sanitization and formatting *)

(** The character class of [sanitize_filename]: the eight characters
    < > : / \ | ? * and the double quote. *)
Definition invalid_chars (c : ascii) : bool :=
  Py.char_in (lit "<>:/\|?*" ++ [Py.dquote]) c.

Definition sanitize_filename (filename : str) : str :=
  Py.strip (Py.re_sub_class invalid_chars [] filename).

(** A field of a provider's JSON object. Slicing a value that is not a
    string, or passing it to [re.sub], raises [TypeError]. *)
Inductive value :=
| VStr (s : str)
| VNull
| VNum (n : Z)
| VBool (b : bool).

#[global] Instance value_eq_dec : EqDecision value.
Proof. solve_decision. Defined.

Abbreviation Dict := (gmap str value).

(** [format_movie_filename]; [None] stands for the [TypeError] raised. *)
Definition format_movie_filename (movie_info : Dict) (original_ext : str)
  : option str :=
  let title := default (VStr (lit "Unknown")) (movie_info !! lit "title") in
  match default (VStr (lit "0000")) (movie_info !! lit "release_date") with
  | VStr release_date =>
      let year := take 4 release_date in
      match title with
      | VStr title =>
          let safe_title := sanitize_filename title in
          Some (safe_title ++ lit " (" ++ year ++ lit ")" ++ original_ext)
      | _ => None
      end
  | _ => None
  end.

(** *** Metadata lookup *)

(** A request to a provider, with the parameters that are sent. *)
Inductive request :=
| GetMovie (query : str) (release_year : option str)
| GetTv (query : str) (first_air_date_year : option str)
| PostAnime (search : str).

(** What a request comes to inside the [try] block: an exception
    (transport error, HTTP error status, a body that is not the expected
    JSON), or the list found under [results] ([Page.media] for the anime
    provider), empty when it is missing. *)
Inductive response :=
| Failed
| Results (items : list Dict).

(** What the tool logs and prints. *)
Inductive event :=
| ErrorSearchingMovie (title : str)
| ErrorSearchingTv (title : str)
| ErrorSearchingAnime (title : str)
| NoMatch (name : str)
| DryRunRename (name new_name : str)
| Renamed (new_name : str)
| Error.

(** An invocation of one of the three search functions. *)
Inductive call :=
| CallMovie (title : str) (year : option Z)
| CallTv (title : str) (year : option Z)
| CallAnime (title : str).

(** The state the organizer works on: its cache, the requests sent to the
    providers so far, the file system and the output. [calls] is a history
    of the search functions invoked; no code reads it, it is kept to state
    in which order the lookups happen. *)
Record world := World {
  cache : gmap str Dict;
  sent : list request;
  calls : list call;
  files : Os.fs;
  out : list event
}.

Definition set_cache (c : gmap str Dict) (w : world) : world :=
  World c (sent w) (calls w) (files w) (out w).
Definition send (r : request) (w : world) : world :=
  World (cache w) (sent w ++ [r]) (calls w) (files w) (out w).
Definition enter (c : call) (w : world) : world :=
  World (cache w) (sent w) (calls w ++ [c]) (files w) (out w).
Definition set_files (f : Os.fs) (w : world) : world :=
  World (cache w) (sent w) (calls w) f (out w).
Definition log (e : event) (w : world) : world :=
  World (cache w) (sent w) (calls w) (files w) (out w ++ [e]).

(** [f"{year}"] for an [Optional[int]]. *)
Definition fmt_year (year : option Z) : str :=
  match year with
  | Some y => Py.str_of_int y
  | None => lit "None"
  end.

(** [if year:] and the parameter it adds. *)
Definition year_param (year : option Z) : option str :=
  match year with
  | Some y => if y =? 0 then None else Some (Py.str_of_int y)
  | None => None
  end.

Definition movie_key (title : str) (year : option Z) : str :=
  lit "movie_" ++ title ++ lit "_" ++ fmt_year year.
Definition tv_key (title : str) (year : option Z) : str :=
  lit "tv_" ++ title ++ lit "_" ++ fmt_year year.
Definition anime_key (title : str) : str := lit "anime_" ++ title.

(** The truth value of an [Optional[Dict]] in [if movie:] and [if tv:]:
    [None] and the empty dict are both false. The dict is handed on when
    the test succeeds. *)
Definition if_truthy (d : option Dict) : option Dict :=
  match d with
  | Some d => if bool_decide (d = ∅) then None else Some d
  | None => None
  end.

Section Provider.

(** The providers: the response to a request, given the requests sent
    before it. *)
Variable provider : list request -> request -> response.

(** The body shared by the three search functions: return the cached
    entry when the key is in the cache; otherwise send the request, and
    cache and return the first item of a non-empty result list. *)
Definition cached_query (cache_key : str) (req : request) (on_error : event)
  (w : world) : option Dict * world :=
  match cache w !! cache_key with
  | Some result => (Some result, w)
  | None =>
      let w' := send req w in
      match provider (sent w) req with
      | Results (result :: _) =>
          (Some result, set_cache (<[cache_key := result]> (cache w')) w')
      | Results [] => (None, w')
      | Failed => (None, log on_error w')
      end
  end.

Definition search_movie (title : str) (year : option Z) (w : world)
  : option Dict * world :=
  cached_query (movie_key title year) (GetMovie title (year_param year))
    (ErrorSearchingMovie title) (enter (CallMovie title year) w).

Definition search_tv_show (title : str) (year : option Z) (w : world)
  : option Dict * world :=
  cached_query (tv_key title year) (GetTv title (year_param year))
    (ErrorSearchingTv title) (enter (CallTv title year) w).

Definition search_anime (title : str) (w : world) : option Dict * world :=
  cached_query (anime_key title) (PostAnime title)
    (ErrorSearchingAnime title) (enter (CallAnime title) w).

(** *** Processing files *)

(** How the search logic of [process_file] ends: with the new name, with
    [return False] for want of a match, or with an exception. *)
Inductive naming :=
| Named (new_name : str)
| Unmatched
| Raised.

(** The first half of the [try] block of [process_file], down to the
    computation of [new_name]. *)
Definition find_name (file_path : Os.path) (w : world) : naming * world :=
  match extract_title_year (Os.name file_path) with
  | None => (Raised, w)
  | Some (title, year) =>
      let ext := Os.suffix file_path in
      let '(movie, w) := search_movie title year w in
      match if_truthy movie with
      | Some movie =>
          match format_movie_filename movie ext with
          | Some new_name => (Named new_name, w)
          | None => (Raised, w)
          end
      | None =>
          let '(tv, w) := search_tv_show title year w in
          match if_truthy tv with
          | Some tv =>
              match tv !! lit "name" with
              | Some (VStr name) =>
                  (Named (sanitize_filename name ++ lit " - S01E01" ++ ext), w)
              | _ => (Raised, w)
              end
          | None => (Unmatched, w)
          end
      end
  end.

Variable fl : Os.flavour.

Definition process_file (file_path : Os.path) (dry_run : bool) (w : world)
  : bool * world :=
  let '(named, w) := find_name file_path w in
  match named with
  | Unmatched => (false, log (NoMatch (Os.name file_path)) w)
  | Raised => (false, log Error w)
  | Named new_name =>
      let new_path := Os.join (Os.parent file_path) new_name in
      if dry_run then
        (true, log (DryRunRename (Os.name file_path) new_name) w)
      else if Os.exists_ (files w) new_path then (false, w)
      else match Os.rename fl file_path new_path (files w) with
           | Some files' => (true, log (Renamed new_name) (set_files files' w))
           | None => (false, log Error w)
           end
  end.

Definition exts : list str := [lit ".mp4"; lit ".mkv"; lit ".avi"; lit ".mov"].

(** The files collected by the first loop of [process_directory], from
    what [path.glob(pattern)] yields. *)
Definition collect (listing : list Os.path) (w : world) : list Os.path :=
  filter (fun f => Os.is_file (files w) f = true
                   /\ Py.lower (Os.suffix f) ∈ exts) listing.

(** The worker pool runs [process_file] on each collected file; the
    model runs them one after the other, in the order of the list. *)
Definition process_all (fs : list Os.path) (dry_run : bool) (w : world) : world :=
  foldl (fun w f => snd (process_file f dry_run w)) w fs.

Definition process_directory (listing : list Os.path) (dry_run : bool)
  (w : world) : world :=
  process_all (collect listing w) dry_run w.

End Provider.

End CreateIs.

(* ===================================================================== *)
(** ** plex_converter.py: the filename sanitizer *)
(* ===================================================================== *)

Module PlexConverter.

(** The class of invalid characters: the eight characters < > : / \ | ? *,
    the double quote, and the control characters 0x00..0x1F. *)
Definition invalid_chars (c : ascii) : bool :=
  Py.char_in (lit "<>:/\|?*" ++ [Py.dquote]) c || (Py.code c <=? 31)%N.

Definition is_underscore (c : ascii) : bool := Ascii.eqb c "_"%char.

Definition sanitize_filename (filename : str) : str :=
  let sanitized := Py.re_sub_class invalid_chars (lit "_") filename in
  let sanitized := Py.strip_chars (Py.char_in (lit " .")) sanitized in
  let sanitized := Py.re_sub_plus is_underscore (lit "_") sanitized in
  let sanitized := Py.rstrip is_underscore sanitized in
  match sanitized with
  | [] => lit "unnamed_file"
  | _ => sanitized
  end.

(** What the tool prints. *)
Inductive event :=
| WouldRename (original_name sanitized_name : str)
| Renamed (original_name sanitized_name : str)
| ErrorRenaming (original_name : str).

Record world := World { files : Os.fs; out : list event }.

Definition print (e : event) (w : world) : world :=
  World (files w) (out w ++ [e]).

Definition set_files (f : Os.fs) (w : world) : world := World f (out w).

Section Platform.

Variable fl : Os.flavour.

Definition process_file (file_path : Os.path) (dry_run : bool) (w : world)
  : bool * world :=
  let original_name := Os.name file_path in
  let sanitized_name := sanitize_filename original_name in
  if bool_decide (original_name = sanitized_name) then (false, w)
  else if dry_run then
    (true, print (WouldRename original_name sanitized_name) w)
  else
    let new_path := Os.join (Os.parent file_path) sanitized_name in
    match Os.rename fl file_path new_path (files w) with
    | Some files' =>
        (true, print (Renamed original_name sanitized_name) (set_files files' w))
    | None => (false, print (ErrorRenaming original_name) w)
    end.

(** The loop shared by the two branches of [process_directory]: each
    listed path that is a file when its turn comes is processed, and the
    files for which [process_file] returns [True] are counted. *)
Fixpoint process_listing (listing : list Os.path) (dry_run : bool)
  (processed_count : Z) (w : world) : Z * world :=
  match listing with
  | [] => (processed_count, w)
  | file_path :: rest =>
      if Os.is_file (files w) file_path then
        let '(ok, w') := process_file file_path dry_run w in
        process_listing rest dry_run
          (if ok then processed_count + 1 else processed_count) w'
      else process_listing rest dry_run processed_count w
  end.

(** [process_directory]. The directory is given by what its two
    enumerations yield: [rglob] for [directory_path.rglob('*')] and
    [iterdir] for [directory_path.iterdir()]. The result is
    [(processed_count, error_count)]; the enumeration itself is taken to
    succeed, so [error_count] stays 0. *)
Definition process_directory (rglob iterdir : list Os.path)
  (dry_run recursive : bool) (w : world) : (Z * Z) * world :=
  let '(processed_count, w') :=
    process_listing (if recursive then rglob else iterdir) dry_run 0 w in
  ((processed_count, 0), w').

End Platform.

End PlexConverter.

(** The third step of the sanitizer: runs of underscores are collapsed. *)
Abbreviation collapse :=
  (Py.re_sub_plus PlexConverter.is_underscore (lit "_")).

(* ===================================================================== *)
(** ** The vocabulary of the specification *)
(* ===================================================================== *)

Module Spec.

(** The characters no sanitized name may contain. *)
Definition forbidden (c : ascii) : Prop :=
  In c (lit "<>:/\|?*") \/ c = Py.dquote.

Definition control (c : ascii) : Prop := (Py.code c <= 31)%N.

(** A delimiter before a year token: parenthesis, bracket, dot or space. *)
Definition opening (c : ascii) : Prop :=
  c = "("%char \/ c = "["%char \/ c = "."%char \/ c = " "%char.

(** A delimiter after a year token. *)
Definition closing (c : ascii) : Prop :=
  c = ")"%char \/ c = "]"%char \/ c = "."%char \/ c = " "%char.

(** [stem] is [pre], a delimited 4-digit token for the year [y] between
    1900 and 2099, and [post]. *)
Definition year_token (stem pre : str) (y : Z) (post : str) : Prop :=
  1900 <= y <= 2099 /\
  exists o c, opening o /\ closing c /\
              stem = pre ++ o :: Py.str_of_int y ++ c :: post.

(** A year token starts at index [i] of [stem]. *)
Definition year_token_at (stem : str) (i : nat) : Prop :=
  exists pre y post, length pre = i /\ year_token stem pre y post.

(** The three kinds of metadata lookup, each given a title and an
    optional year; the anime lookup takes the title only. *)
Inductive kind := Movie | Tv | Anime.

Definition lookup (provider : list CreateIs.request -> CreateIs.request -> CreateIs.response)
  (k : kind) (title : str) (year : option Z) (w : CreateIs.world)
  : option CreateIs.Dict * CreateIs.world :=
  match k with
  | Movie => CreateIs.search_movie provider title year w
  | Tv => CreateIs.search_tv_show provider title year w
  | Anime => CreateIs.search_anime provider title w
  end.

(** The cache key and the request of a lookup. *)
Definition key_of (k : kind) (title : str) (year : option Z) : str :=
  match k with
  | Movie => CreateIs.movie_key title year
  | Tv => CreateIs.tv_key title year
  | Anime => CreateIs.anime_key title
  end.

Definition request_of (k : kind) (title : str) (year : option Z) : CreateIs.request :=
  match k with
  | Movie => CreateIs.GetMovie title (CreateIs.year_param year)
  | Tv => CreateIs.GetTv title (CreateIs.year_param year)
  | Anime => CreateIs.PostAnime title
  end.

Definition call_of (k : kind) (title : str) (year : option Z) : CreateIs.call :=
  match k with
  | Movie => CreateIs.CallMovie title year
  | Tv => CreateIs.CallTv title year
  | Anime => CreateIs.CallAnime title
  end.

End Spec.

(* ===================================================================== *)
(** ** Auxiliary definitions of the proofs *)
(* ===================================================================== *)

Module Aux.

(** The check of one candidate year: its rendering has four characters
    that the pattern accepts and that [int] reads back. *)
Definition year_checked (y : Z) : bool :=
  match Py.str_of_int y with
  | [a; b; c; d] =>
      (Ascii.eqb a "1" && Ascii.eqb b "9" || Ascii.eqb a "2" && Ascii.eqb b "0")
      && Py.isdigit c && Py.isdigit d
      && bool_decide (Py.int [a; b; c; d] = Some y)
  | _ => false
  end.

(** The two-digit endings: what the pattern accepts after 19 or 20 is the
    rendering of a year of the range. *)
Definition century_checked (a b : ascii) (n m : nat) : bool :=
  let c := ascii_of_nat (48 + n) in
  let d := ascii_of_nat (48 + m) in
  match Py.int [a; b; c; d] with
  | Some y => (1900 <=? y) && (y <=? 2099)
              && bool_decide (Py.str_of_int y = [a; b; c; d])
  | None => false
  end.

(** The characters of a rendered integer: digits and the minus sign. *)
Definition numeric (c : ascii) : Prop := Py.isdigit c = true \/ c = "-"%char.

(** No two adjacent characters of [s] satisfy [p]. *)
Fixpoint no_runs (p : ascii -> bool) (s : str) : Prop :=
  match s with
  | c :: (d :: _) as s' => (p c = true -> p d = false) /\ no_runs p s'
  | _ => True
  end.

(** Two file systems hold the same contents: as many files, and every
    content of the one is a content of the other. *)
Definition same_contents (m m' : Os.fs) : Prop :=
  size m' = size m
  /\ forall content, (exists p, m' !! p = Some content) <-> (exists p, m !! p = Some content).

End Aux.

(* ===================================================================== *)
(** ** Example data *)
(* ===================================================================== *)

Module Example.

(** A world with an empty cache, no request sent and the given files. *)
Definition world_with (files : Os.fs) : CreateIs.world :=
  CreateIs.World ∅ [] [] files [].

(** A movie item as the provider returns it. *)
Definition heat : CreateIs.Dict :=
  <[lit "title" := CreateIs.VStr (lit "Heat")]>
    (<[lit "release_date" := CreateIs.VStr (lit "1995-12-15")]> ∅).

(** A provider that knows one movie and no TV show. *)
Definition provider_heat (_ : list CreateIs.request) (req : CreateIs.request)
  : CreateIs.response :=
  match req with
  | CreateIs.GetMovie _ _ => CreateIs.Results [heat]
  | _ => CreateIs.Results []
  end.

(** A provider whose movie search returns one item, the empty JSON
    object, and whose other searches fail. *)
Definition provider_empty_object (_ : list CreateIs.request) (req : CreateIs.request)
  : CreateIs.response :=
  match req with
  | CreateIs.GetMovie _ _ => CreateIs.Results [∅]
  | _ => CreateIs.Failed
  end.

(** An anime item, and a provider that returns it to every request. *)
Definition akira : CreateIs.Dict := <[lit "id" := CreateIs.VNum 47]> ∅.

Definition provider_akira (_ : list CreateIs.request) (_ : CreateIs.request)
  : CreateIs.response := CreateIs.Results [akira].

(** A provider that is down. *)
Definition provider_down (_ : list CreateIs.request) (_ : CreateIs.request)
  : CreateIs.response := CreateIs.Failed.

(** A directory in which the renamer's target name is taken. *)
Definition heat_files : Os.fs :=
  <[(lit "/media", lit "Heat.(1995).mkv") := 1%nat]>
    (<[(lit "/media", lit "Heat (1995).mkv") := 2%nat]> ∅).

(** A directory in which the sanitizer's target name is taken. *)
Definition clash_files : Os.fs :=
  <[(lit "/media", lit "a?b") := 1%nat]>
    (<[(lit "/media", lit "a_b") := 2%nat]> ∅).

(** A directory with one film, whose target name is free. *)
Definition heat_only_files : Os.fs :=
  <[(lit "/media", lit "Heat.(1995).mkv") := 1%nat]> ∅.

(** A directory with one file to sanitize, whose target name is free. *)
Definition query_files : Os.fs :=
  <[(lit "/media", lit "a?b") := 1%nat]> ∅.

(** A world in which the movie lookup for Heat (1995) is already cached. *)
Definition heat_cached_world : CreateIs.world :=
  CreateIs.World (<[CreateIs.movie_key (lit "Heat") (Some 1995) := heat]> ∅)
    [] [] heat_only_files [].

End Example.

(* ===================================================================== *)
(** ** Facts about the Python primitives *)
(* ===================================================================== *)

Section StripFacts.

Variable p : ascii -> bool.

Lemma lstrip_Forall (P : ascii -> Prop) s : Forall P s -> Forall P (Py.lstrip p s).
Proof.
  induction 1 as [|c s Hc Hs IH]; simpl; [constructor|].
  destruct (p c); [exact IH | by constructor].
Qed.

Lemma rstrip_Forall (P : ascii -> Prop) s : Forall P s -> Forall P (Py.rstrip p s).
Proof.
  induction 1 as [|c s Hc Hs IH]; simpl; [constructor|].
  destruct (Py.rstrip p s) as [|d r].
  - destruct (p c); repeat constructor; done.
  - by constructor.
Qed.

(** A stripped string starts with a character that is kept. *)
Lemma lstrip_head c s' s : Py.lstrip p s = c :: s' -> p c = false.
Proof.
  induction s as [|d s IH]; simpl; [done|].
  destruct (p d) eqn:E; [exact IH|]. by intros [= -> _].
Qed.

Lemma lstrip_id c s : p c = false -> Py.lstrip p (c :: s) = c :: s.
Proof. intros H. simpl. by rewrite H. Qed.

(** [rstrip] keeps the head of a string whose head is kept. *)
Lemma rstrip_head c s : p c = false -> exists r, Py.rstrip p (c :: s) = c :: r.
Proof.
  intros H. simpl. destruct (Py.rstrip p s) as [|d r]; rewrite ?H; eauto.
Qed.

Lemma rstrip_idemp s : Py.rstrip p (Py.rstrip p s) = Py.rstrip p s.
Proof.
  induction s as [|c s IH]; simpl; [done|].
  destruct (Py.rstrip p s) as [|d r] eqn:E.
  - destruct (p c) eqn:Ec; simpl; by rewrite ?Ec.
  - change (Py.rstrip p (c :: d :: r)) with
      (match Py.rstrip p (d :: r) with
       | [] => if p c then [] else [c]
       | r' => c :: r'
       end).
    by rewrite IH.
Qed.

Lemma strip_chars_idemp s :
  Py.strip_chars p (Py.strip_chars p s) = Py.strip_chars p s.
Proof.
  unfold Py.strip_chars.
  destruct (Py.lstrip p s) as [|c s'] eqn:E; [done|].
  apply lstrip_head in E.
  destruct (rstrip_head c s' E) as [r Hr]. rewrite Hr.
  rewrite (lstrip_id _ _ E), <- Hr. apply rstrip_idemp.
Qed.

Lemma re_sub_plus_Forall (P : ascii -> Prop) repl s :
  Forall P repl -> Forall P s -> Forall P (Py.re_sub_plus p repl s).
Proof.
  intros Hrepl. induction 1 as [|c s Hc Hs IH]; [constructor|].
  cbn [Py.re_sub_plus]. destruct (p c).
  - destruct s as [|d s]; [done|]. destruct (p d); [done|].
    by apply Forall_app.
  - by constructor.
Qed.

Lemma re_sub_class_Forall (P : ascii -> Prop) repl s :
  Forall P repl -> (forall c, p c = false -> P c) ->
  Forall P (Py.re_sub_class p repl s).
Proof.
  intros Hrepl Hp. induction s as [|c s IH]; [constructor|].
  unfold Py.re_sub_class. simpl. apply Forall_app. split; [|exact IH].
  destruct (p c) eqn:E; [done|]. repeat constructor. by apply Hp.
Qed.

(** Removing the class from a string that has none of it changes nothing. *)
Lemma re_sub_class_clean repl s :
  Forall (fun c => p c = false) s -> Py.re_sub_class p repl s = s.
Proof.
  induction 1 as [|c s Hc Hs IH]; [done|].
  unfold Py.re_sub_class in *. simpl. by rewrite Hc, IH.
Qed.

End StripFacts.

(* ===================================================================== *)
(** ** Sanitization *)
(* ===================================================================== *)

Lemma char_in_false chars c : Py.char_in chars c = false -> ~ In c chars.
Proof.
  unfold Py.char_in. intros H Hin.
  assert (existsb (Ascii.eqb c) chars = true) as E; [|congruence].
  apply existsb_exists. exists c. split; [done | apply Ascii.eqb_refl].
Qed.

Lemma char_in_true chars c : Py.char_in chars c = true -> In c chars.
Proof.
  unfold Py.char_in. intros H. apply existsb_exists in H as (x & Hx & E).
  apply Ascii.eqb_eq in E. by subst.
Qed.

(** The sanitizer's class covers the forbidden and the control characters. *)
Lemma plex_valid_char c :
  PlexConverter.invalid_chars c = false -> ~ Spec.forbidden c /\ ~ Spec.control c.
Proof.
  unfold PlexConverter.invalid_chars. intros H.
  apply orb_false_iff in H as [H1 H2]. apply char_in_false in H1. split.
  - intros [Hin | ->]; apply H1; apply in_or_app; [by left | right; by left].
  - unfold Spec.control. by apply N.leb_gt in H2; lia.
Qed.

(** The renamer's class covers the forbidden characters only. *)
Lemma renamer_valid_char c :
  CreateIs.invalid_chars c = false -> ~ Spec.forbidden c.
Proof.
  unfold CreateIs.invalid_chars. intros H1. apply char_in_false in H1.
  intros [Hin | ->]; apply H1; apply in_or_app; [by left | right; by left].
Qed.

Lemma plex_sanitize_cases s :
  PlexConverter.sanitize_filename s = lit "unnamed_file" \/
  (PlexConverter.sanitize_filename s <> [] /\
   PlexConverter.sanitize_filename s =
     Py.rstrip PlexConverter.is_underscore
       (Py.re_sub_plus PlexConverter.is_underscore (lit "_")
          (Py.strip_chars (Py.char_in (lit " ."))
             (Py.re_sub_class PlexConverter.invalid_chars (lit "_") s)))).
Proof.
  unfold PlexConverter.sanitize_filename.
  destruct (Py.rstrip _ _) as [|c r]; [by left | right; done].
Qed.

(** C2, as the code has it: the sanitizer tool's [sanitize_filename]
    never returns a name with one of the characters < > : / \ | ? *, the
    double quote or a control character (codes 0 to 31), and never returns the empty string;
    the renamer's [sanitize_filename] never returns a name with one of the
    nine characters (it may keep control characters and may return the
    empty string). *)
Theorem sanitize_filename_output (s : str) :
  (Forall (fun c => ~ Spec.forbidden c /\ ~ Spec.control c)
     (PlexConverter.sanitize_filename s)
   /\ PlexConverter.sanitize_filename s <> [])
  /\ Forall (fun c => ~ Spec.forbidden c) (CreateIs.sanitize_filename s).
Proof.
  assert (Hu : Forall (fun c => ~ Spec.forbidden c /\ ~ Spec.control c) (lit "_")).
  { repeat constructor; apply plex_valid_char; reflexivity. }
  split; [split|].
  - destruct (plex_sanitize_cases s) as [-> | [_ ->]].
    + apply Forall_impl with (P := fun c => PlexConverter.invalid_chars c = false);
        [|apply plex_valid_char].
      apply Forall_forall. intros c Hc. apply list_elem_of_In in Hc.
      cbv in Hc. intuition (subst; reflexivity).
    + apply rstrip_Forall, re_sub_plus_Forall; [exact Hu|].
      apply rstrip_Forall, lstrip_Forall, re_sub_class_Forall; [exact Hu|].
      apply plex_valid_char.
  - destruct (plex_sanitize_cases s) as [-> | [H _]]; done.
  - unfold CreateIs.sanitize_filename, Py.strip, Py.strip_chars.
    apply rstrip_Forall, lstrip_Forall, re_sub_class_Forall; [constructor|].
    apply renamer_valid_char.
Qed.

(** C2 fails for the renamer: its [sanitize_filename] returns the empty
    string for the name [?], and keeps the control character BEL. *)
Lemma renamer_sanitize_not_clean :
  CreateIs.sanitize_filename (lit "?") = []
  /\ CreateIs.sanitize_filename [ascii_of_nat 7; "a"%char] = [ascii_of_nat 7; "a"%char]
  /\ Spec.control (ascii_of_nat 7).
Proof. split; [|split]; [reflexivity | reflexivity | unfold Spec.control; vm_compute; discriminate]. Qed.

(** X2: the renamer's [sanitize_filename] is idempotent. *)
Lemma renamer_sanitize_idempotent (s : str) :
  CreateIs.sanitize_filename (CreateIs.sanitize_filename s)
  = CreateIs.sanitize_filename s.
Proof.
  unfold CreateIs.sanitize_filename at 1.
  rewrite re_sub_class_clean.
  - unfold CreateIs.sanitize_filename, Py.strip. apply strip_chars_idemp.
  - unfold CreateIs.sanitize_filename, Py.strip, Py.strip_chars.
    apply rstrip_Forall, lstrip_Forall, re_sub_class_Forall; [constructor|done].
Qed.

(** C3 at the name [a.?]: the sanitizer tool's [sanitize_filename] returns
    [a.], whose trailing dot is stripped when it is sanitized again, so
    sanitizing twice differs from sanitizing once. *)
Theorem plex_sanitize_not_idempotent :
  PlexConverter.sanitize_filename (lit "a.?") = lit "a."
  /\ PlexConverter.sanitize_filename (PlexConverter.sanitize_filename (lit "a.?")) = lit "a"
  /\ PlexConverter.sanitize_filename (PlexConverter.sanitize_filename (lit "a.?"))
     <> PlexConverter.sanitize_filename (lit "a.?").
Proof. split; [|split]; [reflexivity | reflexivity | discriminate]. Qed.

(** C8, as the code has it: the sanitizer tool's [sanitize_filename]
    turns [Show: Season 1?.mp4] into [Show_ Season 1_.mp4]; the colon and
    the question mark are each replaced by an underscore and nothing is
    trimmed. *)
Theorem plex_sanitize_example :
  PlexConverter.sanitize_filename (lit "Show: Season 1?.mp4")
  = lit "Show_ Season 1_.mp4".
Proof. reflexivity. Qed.

(** C8 fails as stated: the result is not [Show Season 1.mp4]. *)
Lemma show_season_name_keeps_underscores :
  PlexConverter.sanitize_filename (lit "Show: Season 1?.mp4")
  <> lit "Show Season 1.mp4".
Proof. discriminate. Qed.

(* ===================================================================== *)
(** ** The sanitizer tool's [process_file] *)
(* ===================================================================== *)

(** C9: a file whose name [sanitize_filename] leaves as it is makes the
    sanitizer tool's [process_file] return [False] without renaming or
    printing anything, in dry-run mode and in apply mode. *)
Theorem plex_process_file_fixed_point
  (fl : Os.flavour) (file_path : Os.path) (dry_run : bool)
  (w : PlexConverter.world) :
  PlexConverter.sanitize_filename (Os.name file_path) = Os.name file_path ->
  PlexConverter.process_file fl file_path dry_run w = (false, w).
Proof.
  intros H. unfold PlexConverter.process_file. rewrite H.
  by rewrite bool_decide_eq_true_2.
Qed.

Lemma plex_process_file_fixed_point_witness :
  let w := PlexConverter.World {[ (lit "/media", lit "movie.mp4") := 1%nat ]} [] in
  PlexConverter.process_file Os.Posix (lit "/media", lit "movie.mp4") true w = (false, w)
  /\ PlexConverter.process_file Os.Posix (lit "/media", lit "movie.mp4") false w = (false, w).
Proof.
  split; apply plex_process_file_fixed_point; reflexivity.
Defined.

(* ===================================================================== *)
(** ** Formatting a movie's file name *)
(* ===================================================================== *)

(** C10: the year in the name built by [format_movie_filename] is the
    first four characters of the [release_date] value; the default [0000]
    is used only when the key is absent; a [release_date] that is present
    and empty gives a name of the form [Title ().ext]. *)
Theorem format_movie_filename_year
  (movie_info : CreateIs.Dict) (original_ext title : str) :
  default (CreateIs.VStr (lit "Unknown")) (movie_info !! lit "title")
    = CreateIs.VStr title ->
  (forall release_date,
      movie_info !! lit "release_date" = Some (CreateIs.VStr release_date) ->
      CreateIs.format_movie_filename movie_info original_ext
      = Some (CreateIs.sanitize_filename title ++ lit " (" ++ take 4 release_date
              ++ lit ")" ++ original_ext))
  /\ (movie_info !! lit "release_date" = None ->
      CreateIs.format_movie_filename movie_info original_ext
      = Some (CreateIs.sanitize_filename title ++ lit " (0000)" ++ original_ext))
  /\ (movie_info !! lit "release_date" = Some (CreateIs.VStr []) ->
      CreateIs.format_movie_filename movie_info original_ext
      = Some (CreateIs.sanitize_filename title ++ lit " ()" ++ original_ext)).
Proof.
  intros Ht. unfold CreateIs.format_movie_filename. rewrite Ht.
  split; [|split].
  - intros d ->. reflexivity.
  - intros ->. reflexivity.
  - intros ->. reflexivity.
Qed.

Lemma format_movie_filename_year_witness :
  CreateIs.format_movie_filename
    (<[lit "title" := CreateIs.VStr (lit "Heat")]>
       (<[lit "release_date" := CreateIs.VStr []]> ∅)) (lit ".mkv")
  = Some (lit "Heat ().mkv")
  /\ CreateIs.format_movie_filename
       (<[lit "title" := CreateIs.VStr (lit "Heat")]>
          (<[lit "release_date" := CreateIs.VStr (lit "1995-12-15")]> ∅)) (lit ".mkv")
     = Some (lit "Heat (1995).mkv")
  /\ CreateIs.format_movie_filename
       (<[lit "title" := CreateIs.VStr (lit "Heat")]> ∅) (lit ".mkv")
     = Some (lit "Heat (0000).mkv").
Proof.
  split; [|split].
  - refine (proj2 (proj2 (format_movie_filename_year
                            _ (lit ".mkv") (lit "Heat") _)) _); reflexivity.
  - refine (proj1 (format_movie_filename_year _ (lit ".mkv") (lit "Heat") _)
              (lit "1995-12-15") _); reflexivity.
  - refine (proj1 (proj2 (format_movie_filename_year
                            _ (lit ".mkv") (lit "Heat") _)) _); reflexivity.
Defined.

(* ===================================================================== *)
(** ** Title and year extraction *)
(* ===================================================================== *)

Section Search.

Variable at_head : str -> bool.

(** [re_search_from] returns the leftmost position at which the pattern
    matches. *)
Lemma re_search_from_Some s i j :
  CreateIs.re_search_from at_head s i = Some j ->
  exists k, j = (i + k)%nat /\ at_head (drop k s) = true
            /\ forall k', (k' < k)%nat -> at_head (drop k' s) = false.
Proof.
  revert i. induction s as [|c s IH]; intros i; cbn [CreateIs.re_search_from].
  - destruct (at_head []) eqn:E; [|done]. intros [= <-].
    exists 0%nat. repeat split; [lia | done | lia].
  - destruct (at_head (c :: s)) eqn:E.
    + intros [= <-]. exists 0%nat. repeat split; [lia | done | lia].
    + intros H. apply IH in H as (k & -> & Hk & Hlt).
      exists (S k). repeat split; [lia | done |].
      intros [|k'] ?; [done|]. apply Hlt. lia.
Qed.

Lemma re_search_from_None s i :
  CreateIs.re_search_from at_head s i = None ->
  forall k, at_head (drop k s) = false.
Proof.
  revert i. induction s as [|c s IH]; intros i; cbn [CreateIs.re_search_from].
  - destruct (at_head []) eqn:E; [done|]. intros _ k. by rewrite drop_nil.
  - destruct (at_head (c :: s)) eqn:E; [done|].
    intros H [|k]; [done|]. simpl. by eapply IH.
Qed.

(** A match at [k] with none before it is what the search returns. *)
Lemma re_search_first s k :
  at_head (drop k s) = true ->
  (forall k', (k' < k)%nat -> at_head (drop k' s) = false) ->
  CreateIs.re_search at_head s = Some k.
Proof.
  intros Hk Hlt. unfold CreateIs.re_search.
  destruct (CreateIs.re_search_from at_head s 0) as [j|] eqn:E.
  - apply re_search_from_Some in E as (k0 & -> & Hk0 & Hlt0). simpl.
    destruct (Nat.lt_trichotomy k0 k) as [H | [-> | H]]; [|done|].
    + rewrite (Hlt _ H) in Hk0. done.
    + rewrite (Hlt0 _ H) in Hk. done.
  - rewrite (re_search_from_None _ _ E k) in Hk. done.
Qed.

End Search.

Lemma open_delim_spec c : CreateIs.open_delim c = true <-> Spec.opening c.
Proof.
  unfold Spec.opening. split.
  - intros H. apply char_in_true in H. cbv in H. intuition.
  - intros [-> | [-> | [-> | ->]]]; reflexivity.
Qed.

Lemma close_delim_spec c : CreateIs.close_delim c = true <-> Spec.closing c.
Proof.
  unfold Spec.closing. split.
  - intros H. apply char_in_true in H. cbv in H. intuition.
  - intros [-> | [-> | [-> | ->]]]; reflexivity.
Qed.

Lemma opening_not_digit c : Spec.opening c -> Py.isdigit c = false.
Proof. intros [-> | [-> | [-> | ->]]]; reflexivity. Qed.

(** The ten digits. *)
Lemma isdigit_inv c :
  Py.isdigit c = true -> exists n, (n < 10)%nat /\ c = ascii_of_nat (48 + n).
Proof.
  intros H. exists (nat_of_ascii c - 48)%nat.
  unfold Py.isdigit, Py.code in H. apply andb_true_iff in H as [H1 H2].
  apply N.leb_le in H1, H2.
  assert (N_of_ascii c = N.of_nat (nat_of_ascii c)) as E.
  { unfold nat_of_ascii. by rewrite N2Nat.id. }
  rewrite E in H1, H2. split; [lia|].
  replace (48 + (nat_of_ascii c - 48))%nat with (nat_of_ascii c) by lia.
  by rewrite ascii_nat_embedding.
Qed.

Lemma year_checked_range y : 1900 <= y <= 2099 -> Aux.year_checked y = true.
Proof.
  intros Hy.
  assert (forallb (fun n => Aux.year_checked (1900 + Z.of_nat n)) (seq 0 200) = true) as H
    by (vm_compute; reflexivity).
  rewrite forallb_forall in H.
  specialize (H (Z.to_nat (y - 1900))).
  replace (1900 + Z.of_nat (Z.to_nat (y - 1900))) with y in H by lia.
  apply H, in_seq. lia.
Qed.

Lemma century_checked_all a b n m :
  a = "1"%char /\ b = "9"%char \/ a = "2"%char /\ b = "0"%char ->
  (n < 10)%nat -> (m < 10)%nat -> Aux.century_checked a b n m = true.
Proof.
  intros Hab Hn Hm.
  assert (forallb (fun n => forallb (fun m =>
            Aux.century_checked "1" "9" n m && Aux.century_checked "2" "0" n m)
            (seq 0 10)) (seq 0 10) = true) as H by (vm_compute; reflexivity).
  rewrite forallb_forall in H. specialize (H n).
  rewrite forallb_forall in H.
  assert (In n (seq 0 10)) as Hin by (apply in_seq; lia).
  assert (In m (seq 0 10)) as Him by (apply in_seq; lia).
  specialize (H Hin m Him). apply andb_true_iff in H as [H19 H20].
  destruct Hab as [[-> ->] | [-> ->]]; done.
Qed.

(** What a match of [year_pattern] at the head of a string is. *)
Lemma year_pattern_at_inv s :
  CreateIs.year_pattern_at s = true ->
  exists o a b c d e post y,
    s = o :: a :: b :: c :: d :: e :: post
    /\ Spec.opening o /\ Spec.closing e /\ 1900 <= y <= 2099
    /\ Py.str_of_int y = [a; b; c; d] /\ Py.int [a; b; c; d] = Some y
    /\ CreateIs.four_digits_at [a; b; c; d; e] = true.
Proof.
  destruct s as [|o [|a [|b [|c [|d [|e post]]]]]]; try done.
  cbn [CreateIs.year_pattern_at]. intros H.
  repeat (apply andb_true_iff in H as [H ?]).
  apply open_delim_spec in H. apply close_delim_spec in H0.
  destruct (isdigit_inv c) as (n & Hn & ->); [done|].
  destruct (isdigit_inv d) as (m & Hm & ->); [done|].
  assert (a = "1"%char /\ b = "9"%char \/ a = "2"%char /\ b = "0"%char) as Hab.
  { apply orb_true_iff in H3 as [E | E]; apply andb_true_iff in E as [E1 E2];
      apply Ascii.eqb_eq in E1, E2; auto. }
  pose proof (century_checked_all a b n m Hab Hn Hm) as Hc.
  unfold Aux.century_checked in Hc.
  destruct (Py.int _) as [y|] eqn:Ey; [|done].
  repeat (apply andb_true_iff in Hc as [Hc ?]).
  apply bool_decide_eq_true in H4.
  exists o, a, b, (ascii_of_nat (48 + n)), (ascii_of_nat (48 + m)), e, post, y.
  repeat split; try done; try lia.
  cbn [CreateIs.four_digits_at]. rewrite H2, H1.
  destruct Hab as [[-> ->] | [-> ->]]; reflexivity.
Qed.

(** A delimited token of the range is matched. *)
Lemma year_pattern_at_intro o y c post :
  Spec.opening o -> Spec.closing c -> 1900 <= y <= 2099 ->
  exists a b c' d,
    Py.str_of_int y = [a; b; c'; d]
    /\ CreateIs.year_pattern_at (o :: Py.str_of_int y ++ c :: post) = true
    /\ Py.int [a; b; c'; d] = Some y
    /\ CreateIs.four_digits_at [a; b; c'; d; c] = true.
Proof.
  intros Ho Hc Hy. pose proof (year_checked_range y Hy) as H.
  unfold Aux.year_checked in H.
  destruct (Py.str_of_int y) as [|a [|b [|c' [|d [|]]]]]; try done.
  repeat (apply andb_true_iff in H as [H ?]).
  apply bool_decide_eq_true in H0.
  exists a, b, c', d. repeat split; [|done|].
  - cbn [app CreateIs.year_pattern_at].
    apply open_delim_spec in Ho. apply close_delim_spec in Hc.
    by rewrite Ho, Hc, H, H1, H2.
  - cbn [CreateIs.four_digits_at]. rewrite H1, H2.
    apply orb_true_iff in H as [E | E]; apply andb_true_iff in E as [E1 E2];
      apply Ascii.eqb_eq in E1, E2; subst; reflexivity.
Qed.

(** A match of the pattern at index [k] is a year token at [k]. *)
Lemma pattern_year_token stem k :
  CreateIs.year_pattern_at (drop k stem) = true -> Spec.year_token_at stem k.
Proof.
  intros H.
  assert (k < length stem)%nat as Hk.
  { destruct (decide (k < length stem)%nat) as [|Hge]; [done|].
    rewrite drop_ge in H by lia. done. }
  apply year_pattern_at_inv in H
    as (o & a & b & c & d & e & post & y & E & Ho & He & Hy & Hs & _).
  exists (take k stem), y, post. split; [rewrite length_take; lia|].
  split; [done|]. exists o, e. repeat split; [done..|].
  rewrite Hs. simpl. rewrite <- E. by rewrite take_drop.
Qed.

(** What [extract_title_year] returns when the leftmost match of the
    pattern is at index [k]. *)
Lemma extract_title_year_match filename k :
  let stem := Py.path_stem filename in
  CreateIs.year_pattern_at (drop k stem) = true ->
  (forall k', (k' < k)%nat -> CreateIs.year_pattern_at (drop k' stem) = false) ->
  exists o a b c d e post y,
    drop k stem = o :: a :: b :: c :: d :: e :: post
    /\ Py.int [a; b; c; d] = Some y
    /\ CreateIs.extract_title_year filename
       = Some (Py.strip (Py.replace "." " " (take k stem ++ post)), Some y).
Proof.
  intros stem Hk Hlt.
  unfold CreateIs.extract_title_year. cbv zeta. fold stem. clearbody stem.
  rewrite (re_search_first _ _ _ Hk Hlt).
  apply year_pattern_at_inv in Hk
    as (o & a & b & c & d & e & post & y & E & Ho & He & Hy & Hs & Hi & H4).
  exists o, a, b, c, d, e, post, y. do 2 (split; [done|]).
  rewrite E. cbn [take].
  rewrite (re_search_first _ _ 1%nat).
  - cbn [drop take]. rewrite Hi.
    replace (drop (k + 6) stem) with post; [done|].
    rewrite <- drop_drop, E. done.
  - exact H4.
  - intros k' Hk'. assert (k' = 0%nat) as -> by lia.
    cbn [drop CreateIs.four_digits_at]. by rewrite (opening_not_digit o Ho).
Qed.

(** [extract_title_year] raises no exception. *)
Lemma extract_title_year_total filename :
  exists title year, CreateIs.extract_title_year filename = Some (title, year).
Proof.
  destruct (CreateIs.re_search CreateIs.year_pattern_at (Py.path_stem filename))
    as [j|] eqn:E.
  - unfold CreateIs.re_search in E.
    apply re_search_from_Some in E as (k & -> & Hk & Hlt).
    destruct (extract_title_year_match filename k Hk Hlt)
      as (o & a & b & c & d & e & post & y & _ & _ & H).
    eauto.
  - unfold CreateIs.extract_title_year. rewrite E. eauto.
Qed.

(** C1: when the stem of the file name has a 4-digit token for a year of
    1900..2099 between an opening and a closing delimiter (parenthesis,
    bracket, dot or space) and no such token starts further left,
    [extract_title_year] returns that year, and as the title the stem
    without the token and its two delimiters, with dots replaced by
    spaces, stripped. When the stem has no such token it returns no year,
    and as the title the stem with dots replaced by spaces, stripped. *)
Theorem extract_title_year_spec (filename : str) :
  let stem := Py.path_stem filename in
  (forall pre y post,
      Spec.year_token stem pre y post ->
      (forall i, Spec.year_token_at stem i -> (length pre <= i)%nat) ->
      CreateIs.extract_title_year filename
      = Some (Py.strip (Py.replace "." " " (pre ++ post)), Some y))
  /\ ((forall i, ~ Spec.year_token_at stem i) ->
      CreateIs.extract_title_year filename
      = Some (Py.strip (Py.replace "." " " stem), None)).
Proof.
  intros stem. split.
  - intros pre y post (Hy & o & c & Ho & Hc & E) Hfirst.
    destruct (year_pattern_at_intro o y c post Ho Hc Hy)
      as (a & b & c' & d & Hs & Hp & Hi & _).
    assert (drop (length pre) stem = o :: Py.str_of_int y ++ c :: post) as Hd.
    { rewrite E. apply drop_app_length. }
    destruct (extract_title_year_match filename (length pre))
      as (o' & a' & b' & c'' & d' & e' & post' & y' & Hd' & Hi' & ->).
    + fold stem. by rewrite Hd.
    + intros k' Hk'. fold stem.
      destruct (CreateIs.year_pattern_at (drop k' stem)) eqn:Ek; [|done].
      apply pattern_year_token, Hfirst in Ek. lia.
    + fold stem in Hd'. rewrite Hd, Hs in Hd'.
      injection Hd' as <- <- <- <- <- <- <-.
      rewrite Hi in Hi'. injection Hi' as <-.
      fold stem. rewrite E. by rewrite take_app_length.
  - intros Hnone. unfold CreateIs.extract_title_year. cbv zeta. fold stem.
    destruct (CreateIs.re_search CreateIs.year_pattern_at stem) as [j|] eqn:Es; [|done].
    unfold CreateIs.re_search in Es.
    apply re_search_from_Some in Es as (k & -> & Hk & _).
    apply pattern_year_token in Hk. by apply Hnone in Hk.
Qed.

(** A year token at [i] is a match of the pattern at [i]. *)
Lemma year_token_pattern stem i :
  Spec.year_token_at stem i -> CreateIs.year_pattern_at (drop i stem) = true.
Proof.
  intros (pre & y & post & <- & Hy & o & c & Ho & Hc & ->).
  rewrite drop_app_length.
  by destruct (year_pattern_at_intro o y c post Ho Hc Hy) as (_ & _ & _ & _ & _ & H & _).
Qed.

(** Checking by evaluation that no token starts before index [k]. *)
Lemma no_token_before stem k :
  forallb (fun i => negb (CreateIs.year_pattern_at (drop i stem))) (seq 0 k) = true ->
  forall i, Spec.year_token_at stem i -> (k <= i)%nat.
Proof.
  intros H i Hi. apply year_token_pattern in Hi.
  destruct (decide (k <= i)%nat) as [|Hlt]; [done|].
  rewrite forallb_forall in H. specialize (H i).
  rewrite Hi in H. discriminate H. apply in_seq. lia.
Qed.

(** Checking by evaluation that a stem has no token at all. *)
Lemma no_token_anywhere stem :
  forallb (fun i => negb (CreateIs.year_pattern_at (drop i stem)))
    (seq 0 (length stem)) = true ->
  forall i, ~ Spec.year_token_at stem i.
Proof.
  intros H i Hi. pose proof (no_token_before _ _ H i Hi) as Hle.
  apply year_token_pattern in Hi. rewrite drop_ge in Hi by lia. done.
Qed.

Lemma extract_title_year_spec_witness :
  CreateIs.extract_title_year (lit "The.Matrix.(1999).mkv")
  = Some (lit "The Matrix", Some 1999)
  /\ CreateIs.extract_title_year (lit "The.Matrix.1999.mkv")
     = Some (lit "The Matrix 1999", None).
Proof.
  split.
  - refine (proj1 (extract_title_year_spec (lit "The.Matrix.(1999).mkv"))
              (lit "The.Matrix.") 1999 [] _ _).
    + split; [lia|]. exists "("%char, ")"%char.
      unfold Spec.opening, Spec.closing. repeat split; auto.
    + apply no_token_before. vm_compute. reflexivity.
  - refine (proj2 (extract_title_year_spec (lit "The.Matrix.1999.mkv")) _).
    apply no_token_anywhere. vm_compute. reflexivity.
Defined.

(* ===================================================================== *)
(** ** The renamer's lookups and [process_file] *)
(* ===================================================================== *)

Section RenamerFacts.

Variable provider : list CreateIs.request -> CreateIs.request -> CreateIs.response.
Variable fl : Os.flavour.

(** A query touches neither the files nor the history of calls. *)
Lemma cached_query_frame key req e w :
  CreateIs.files (snd (CreateIs.cached_query provider key req e w)) = CreateIs.files w
  /\ CreateIs.calls (snd (CreateIs.cached_query provider key req e w)) = CreateIs.calls w.
Proof.
  unfold CreateIs.cached_query.
  destruct (CreateIs.cache w !! key); [done|].
  destruct (provider _ _) as [|[|r rs]]; done.
Qed.

Lemma search_movie_frame title year w :
  CreateIs.files (snd (CreateIs.search_movie provider title year w)) = CreateIs.files w
  /\ CreateIs.calls (snd (CreateIs.search_movie provider title year w))
     = CreateIs.calls w ++ [CreateIs.CallMovie title year].
Proof.
  unfold CreateIs.search_movie.
  destruct (cached_query_frame (CreateIs.movie_key title year)
              (CreateIs.GetMovie title (CreateIs.year_param year))
              (CreateIs.ErrorSearchingMovie title)
              (CreateIs.enter (CreateIs.CallMovie title year) w)) as [-> ->].
  done.
Qed.

Lemma search_tv_show_frame title year w :
  CreateIs.files (snd (CreateIs.search_tv_show provider title year w)) = CreateIs.files w
  /\ CreateIs.calls (snd (CreateIs.search_tv_show provider title year w))
     = CreateIs.calls w ++ [CreateIs.CallTv title year].
Proof.
  unfold CreateIs.search_tv_show.
  destruct (cached_query_frame (CreateIs.tv_key title year)
              (CreateIs.GetTv title (CreateIs.year_param year))
              (CreateIs.ErrorSearchingTv title)
              (CreateIs.enter (CreateIs.CallTv title year) w)) as [-> ->].
  done.
Qed.

(** The lookups of [find_name]: the movie lookup, and after it the TV
    lookup exactly when the movie lookup returned [None] or an empty dict. *)
Lemma find_name_frame file_path w title year :
  CreateIs.extract_title_year (Os.name file_path) = Some (title, year) ->
  let movie := fst (CreateIs.search_movie provider title year w) in
  let w' := snd (CreateIs.find_name provider file_path w) in
  CreateIs.files w' = CreateIs.files w
  /\ (CreateIs.if_truthy movie <> None
      /\ CreateIs.calls w' = CreateIs.calls w ++ [CreateIs.CallMovie title year]
      \/ CreateIs.if_truthy movie = None
         /\ CreateIs.calls w' = CreateIs.calls w
              ++ [CreateIs.CallMovie title year; CreateIs.CallTv title year]).
Proof.
  intros E. cbv zeta. unfold CreateIs.find_name. rewrite E.
  pose proof (search_movie_frame title year w) as [Hf Hc].
  destruct (CreateIs.search_movie provider title year w) as [movie w1].
  cbn [fst snd] in *.
  destruct (CreateIs.if_truthy movie) as [m|] eqn:Em.
  - destruct (CreateIs.format_movie_filename m _); cbn [snd]; split; auto.
  - pose proof (search_tv_show_frame title year w1) as [Hf2 Hc2].
    destruct (CreateIs.search_tv_show provider title year w1) as [tv w2].
    cbn [fst snd] in *.
    assert (CreateIs.calls w2 = CreateIs.calls w
              ++ [CreateIs.CallMovie title year; CreateIs.CallTv title year]) as Hc3.
    { rewrite Hc2, Hc, <- app_assoc. done. }
    assert (CreateIs.files w2 = CreateIs.files w) as Hf3 by congruence.
    destruct (CreateIs.if_truthy tv) as [t|]; [|cbn [snd]; auto].
    destruct (t !! lit "name") as [[]|]; cbn [snd]; auto.
Qed.

Lemma find_name_files file_path w :
  CreateIs.files (snd (CreateIs.find_name provider file_path w)) = CreateIs.files w.
Proof.
  destruct (extract_title_year_total (Os.name file_path)) as (title & year & E).
  by destruct (find_name_frame file_path w title year E) as [H _].
Qed.

(** After [find_name], [process_file] adds no call. *)
Lemma process_file_calls file_path dry_run w :
  CreateIs.calls (snd (CreateIs.process_file provider fl file_path dry_run w))
  = CreateIs.calls (snd (CreateIs.find_name provider file_path w)).
Proof.
  unfold CreateIs.process_file.
  destruct (CreateIs.find_name provider file_path w) as [[new_name| |] w']; [|done..].
  cbn [snd]. destruct dry_run; [done|].
  destruct (Os.exists_ _ _); [done|]. destruct (Os.rename _ _ _ _); done.
Qed.

Lemma process_file_dry_run_files file_path w :
  CreateIs.files (snd (CreateIs.process_file provider fl file_path true w))
  = CreateIs.files w.
Proof.
  pose proof (find_name_files file_path w) as H.
  unfold CreateIs.process_file.
  destruct (CreateIs.find_name provider file_path w) as [[new_name| |] w']; done.
Qed.

Lemma process_all_dry_run_files fs w :
  CreateIs.files (CreateIs.process_all provider fl fs true w) = CreateIs.files w.
Proof.
  unfold CreateIs.process_all. revert w.
  induction fs as [|f fs IH]; intros w; [done|].
  cbn [foldl]. rewrite IH. apply process_file_dry_run_files.
Qed.

End RenamerFacts.

Lemma plex_process_file_dry_run_files fl file_path w :
  PlexConverter.files (snd (PlexConverter.process_file fl file_path true w))
  = PlexConverter.files w.
Proof.
  unfold PlexConverter.process_file. by destruct (bool_decide _).
Qed.

Lemma plex_process_listing_dry_run_files fl listing n w :
  PlexConverter.files (snd (PlexConverter.process_listing fl listing true n w))
  = PlexConverter.files w.
Proof.
  revert n w. induction listing as [|f listing IH]; intros n w; [done|].
  cbn [PlexConverter.process_listing].
  destruct (Os.is_file _ _); [|apply IH].
  pose proof (plex_process_file_dry_run_files fl f w) as H.
  destruct (PlexConverter.process_file fl f true w) as [ok w'].
  rewrite IH. exact H.
Qed.

(** C5: with [dry_run=True] neither tool renames anything: after
    [process_file], and after [process_directory], the file system is the
    one before the run. *)
Theorem dry_run_renames_nothing :
  (forall provider fl file_path w,
      CreateIs.files (snd (CreateIs.process_file provider fl file_path true w))
      = CreateIs.files w)
  /\ (forall provider fl listing w,
      CreateIs.files (CreateIs.process_directory provider fl listing true w)
      = CreateIs.files w)
  /\ (forall fl file_path w,
      PlexConverter.files (snd (PlexConverter.process_file fl file_path true w))
      = PlexConverter.files w)
  /\ (forall fl rglob iterdir recursive w,
      PlexConverter.files
        (snd (PlexConverter.process_directory fl rglob iterdir true recursive w))
      = PlexConverter.files w).
Proof.
  split; [|split; [|split]].
  - apply process_file_dry_run_files.
  - intros. apply process_all_dry_run_files.
  - apply plex_process_file_dry_run_files.
  - intros fl rglob iterdir recursive w. unfold PlexConverter.process_directory.
    pose proof (plex_process_listing_dry_run_files fl
                  (if recursive then rglob else iterdir) 0 w) as H.
    destruct (PlexConverter.process_listing _ _ _ _ _) as [n w']. exact H.
Qed.

(** C6, as the code has it: [process_file] calls the movie lookup first;
    it calls the TV lookup after it exactly when the movie lookup returned
    [None] or an empty dict, and otherwise calls nothing else; the anime
    lookup is never called. *)
Theorem lookup_order
  (provider : list CreateIs.request -> CreateIs.request -> CreateIs.response)
  (fl : Os.flavour) (file_path : Os.path) (dry_run : bool) (w : CreateIs.world) :
  exists title year,
    CreateIs.extract_title_year (Os.name file_path) = Some (title, year)
    /\ let movie := fst (CreateIs.search_movie provider title year w) in
       let w' := snd (CreateIs.process_file provider fl file_path dry_run w) in
       (exists m, movie = Some m /\ m <> ∅)
       /\ CreateIs.calls w' = CreateIs.calls w ++ [CreateIs.CallMovie title year]
       \/ (movie = None \/ movie = Some ∅)
          /\ CreateIs.calls w' = CreateIs.calls w
               ++ [CreateIs.CallMovie title year; CreateIs.CallTv title year].
Proof.
  destruct (extract_title_year_total (Os.name file_path)) as (title & year & E).
  exists title, year. split; [done|]. cbv zeta.
  rewrite process_file_calls.
  destruct (find_name_frame provider file_path w title year E) as [_ H].
  cbv zeta in H.
  destruct (fst (CreateIs.search_movie provider title year w)) as [m|]; cbn in H |- *.
  - destruct (bool_decide (m = ∅)) eqn:Em.
    + apply bool_decide_eq_true in Em as ->. right.
      destruct H as [[H _] | [_ H]]; [done|]. auto.
    + apply bool_decide_eq_false in Em. left.
      destruct H as [[_ H] | [H _]]; [|done]. eauto.
  - right. destruct H as [[H _] | [_ H]]; [done|]. auto.
Qed.

(** C6 fails as stated when the movie provider's first item is an empty
    JSON object: the movie lookup returns that result, and the TV lookup
    is called all the same. *)
Lemma tv_lookup_after_empty_movie :
  let w := Example.world_with ∅ in
  let file_path := (lit "/media", lit "Heat.mkv") in
  fst (CreateIs.search_movie Example.provider_empty_object (lit "Heat") None w)
  = Some ∅
  /\ CreateIs.calls
       (snd (CreateIs.process_file Example.provider_empty_object Os.Posix
               file_path false w))
     = [CreateIs.CallMovie (lit "Heat") None; CreateIs.CallTv (lit "Heat") None].
Proof. split; vm_compute; reflexivity. Qed.

(** C4, as the code has it. In the renamer, in apply mode, when the target
    path exists the files are left as they are and [process_file] returns
    [False]. The sanitizer tool does not look for the target: it calls
    [os.rename]; where [os.rename] refuses an existing target (Windows)
    the files are left as they are, an error is printed and [process_file]
    returns [False]. *)
Theorem existing_target_skipped :
  (forall provider fl file_path w new_name w',
      CreateIs.find_name provider file_path w = (CreateIs.Named new_name, w') ->
      is_Some (CreateIs.files w' !! Os.join (Os.parent file_path) new_name) ->
      CreateIs.process_file provider fl file_path false w = (false, w')
      /\ CreateIs.files w' = CreateIs.files w)
  /\ (forall file_path w,
      PlexConverter.sanitize_filename (Os.name file_path) <> Os.name file_path ->
      is_Some (PlexConverter.files w
                 !! Os.join (Os.parent file_path)
                      (PlexConverter.sanitize_filename (Os.name file_path))) ->
      PlexConverter.process_file Os.Windows file_path false w
      = (false, PlexConverter.print (PlexConverter.ErrorRenaming (Os.name file_path)) w)).
Proof.
  split.
  - intros provider fl file_path w new_name w' E Hex.
    pose proof (find_name_files provider file_path w) as Hf. rewrite E in Hf.
    split; [|exact Hf].
    unfold CreateIs.process_file. rewrite E. unfold Os.exists_.
    by rewrite bool_decide_eq_true_2.
  - intros [dir name] w Hne [content Hex].
    unfold PlexConverter.process_file, Os.rename, Os.join, Os.name, Os.parent in *.
    cbn [fst snd] in *.
    rewrite bool_decide_eq_false_2 by done.
    destruct (PlexConverter.files w !! (dir, name)) as [c|]; [|done].
    rewrite bool_decide_eq_false_2 by (intros [= E]; apply Hne; by symmetry).
    by rewrite Hex.
Qed.

Lemma existing_target_skipped_witness :
  let file_path := (lit "/media", lit "Heat.(1995).mkv") in
  let w := Example.world_with Example.heat_files in
  (CreateIs.process_file Example.provider_heat Os.Posix file_path false w
   = (false, snd (CreateIs.find_name Example.provider_heat file_path w))
   /\ CreateIs.files (snd (CreateIs.find_name Example.provider_heat file_path w))
      = CreateIs.files w)
  /\ PlexConverter.process_file Os.Windows (lit "/media", lit "a?b") false
       (PlexConverter.World Example.clash_files [])
     = (false, PlexConverter.print (PlexConverter.ErrorRenaming (lit "a?b"))
                 (PlexConverter.World Example.clash_files [])).
Proof.
  split.
  - refine (proj1 existing_target_skipped Example.provider_heat Os.Posix
              (lit "/media", lit "Heat.(1995).mkv")
              (Example.world_with Example.heat_files)
              (lit "Heat (1995).mkv") _ _ _).
    + vm_compute. reflexivity.
    + vm_compute. eexists. reflexivity.
  - refine (proj2 existing_target_skipped (lit "/media", lit "a?b")
              (PlexConverter.World Example.clash_files []) _ _).
    + vm_compute. discriminate.
    + vm_compute. eexists. reflexivity.
Defined.

(** C4 fails for the sanitizer tool where [os.rename] replaces an
    existing target (POSIX): the file that was at the target path is
    overwritten, the source is renamed and [process_file] returns [True]. *)
Lemma plex_overwrites_existing_target :
  let w := PlexConverter.World Example.clash_files [] in
  let r := PlexConverter.process_file Os.Posix (lit "/media", lit "a?b") false w in
  PlexConverter.files w !! (lit "/media", lit "a_b") = Some 2%nat
  /\ fst r = true
  /\ PlexConverter.files (snd r) !! (lit "/media", lit "a_b") = Some 1%nat
  /\ PlexConverter.files (snd r) !! (lit "/media", lit "a?b") = None.
Proof. repeat split; vm_compute; reflexivity. Qed.

(* ===================================================================== *)
(** ** Cache keys *)
(* ===================================================================== *)

Lemma string_of_uint_numeric d :
  Forall Aux.numeric (list_ascii_of_string (NilEmpty.string_of_uint d)).
Proof.
  induction d; simpl; constructor; try done; by left.
Qed.

Lemma str_of_int_numeric y : Forall Aux.numeric (Py.str_of_int y).
Proof.
  unfold Py.str_of_int.
  assert (forall d, Forall Aux.numeric (list_ascii_of_string (NilZero.string_of_uint d))) as H.
  { intros d. destruct d; try apply string_of_uint_numeric.
    repeat constructor. }
  destruct (Z.to_int y) as [d|d]; simpl; [apply H|].
  constructor; [by right | apply H].
Qed.

Lemma to_int_not_nil y : Z.to_int y <> Decimal.Pos Decimal.Nil /\ Z.to_int y <> Decimal.Neg Decimal.Nil.
Proof.
  destruct y as [|p|p]; simpl; split; try done;
    intros [= E]; by apply (Unsigned.to_uint_nonnil p).
Qed.

Lemma str_of_int_inj y y' : Py.str_of_int y = Py.str_of_int y' -> y = y'.
Proof.
  unfold Py.str_of_int. intros E.
  apply (f_equal string_of_list_ascii) in E.
  rewrite !string_of_list_ascii_of_string in E.
  apply (f_equal NilZero.int_of_string) in E.
  destruct (to_int_not_nil y), (to_int_not_nil y').
  rewrite !NilZero.isi in E by done.
  injection E as E. by apply DecimalZ.to_int_inj.
Qed.

Lemma fmt_year_no_underscore year : ~ In "_"%char (CreateIs.fmt_year year).
Proof.
  destruct year as [y|]; simpl.
  - intros Hin. pose proof (str_of_int_numeric y) as H.
    rewrite Forall_forall in H. apply list_elem_of_In, H in Hin.
    destruct Hin as [Hd | Hm]; [vm_compute in Hd|]; done.
  - cbv. intuition discriminate.
Qed.

Lemma fmt_year_inj year year' :
  CreateIs.fmt_year year = CreateIs.fmt_year year' -> year = year'.
Proof.
  assert (forall y, Py.str_of_int y <> lit "None") as Hne.
  { intros y E. pose proof (str_of_int_numeric y) as H. rewrite E in H.
    apply Forall_inv in H. destruct H as [Hd | Hm]; [vm_compute in Hd|]; done. }
  destruct year as [y|], year' as [y'|]; simpl; intros E.
  - f_equal. by apply str_of_int_inj.
  - by apply Hne in E.
  - symmetry in E. by apply Hne in E.
  - done.
Qed.

(** Two strings cut at their last occurrence of [c] agree part by part. *)
Lemma cut_at_last (c : ascii) (l1 l2 r1 r2 : str) :
  ~ In c r1 -> ~ In c r2 -> l1 ++ c :: r1 = l2 ++ c :: r2 -> l1 = l2 /\ r1 = r2.
Proof.
  intros H1 H2. revert l2.
  induction l1 as [|x l1 IH]; intros [|y l2] E; simpl in E.
  - by injection E.
  - injection E as <- ->. exfalso. apply H1, in_or_app. right. by left.
  - injection E as -> <-. exfalso. apply H2, in_or_app. right. by left.
  - injection E as -> E. apply IH in E as [-> ->]. done.
Qed.

Lemma titled_key_inj (prefix title title' : str) year year' :
  prefix ++ title ++ lit "_" ++ CreateIs.fmt_year year
  = prefix ++ title' ++ lit "_" ++ CreateIs.fmt_year year' ->
  title = title' /\ year = year'.
Proof.
  intros E. apply app_inv_head in E.
  apply cut_at_last in E as [-> E]; try apply fmt_year_no_underscore.
  split; [done | by apply fmt_year_inj].
Qed.

(** The key of a lookup tells its kind and its title, and for the movie
    and TV lookups its year. *)
Lemma key_of_inj k title year k' title' year' :
  Spec.key_of k title year = Spec.key_of k' title' year' ->
  k = k' /\ title = title' /\ (k <> Spec.Anime -> year = year').
Proof.
  destruct k, k'; simpl; intros E; try discriminate E.
  - apply (titled_key_inj (lit "movie_")) in E as [-> ->]. done.
  - apply (titled_key_inj (lit "tv_")) in E as [-> ->]. done.
  - unfold CreateIs.anime_key in E. apply app_inv_head in E. done.
Qed.

(* ===================================================================== *)
(** ** Memoization of the lookups *)
(* ===================================================================== *)

Section Memo.

Variable provider : list CreateIs.request -> CreateIs.request -> CreateIs.response.

(** Each lookup is the shared body run on its key and its request. *)
Lemma lookup_unfold k title year w :
  Spec.lookup provider k title year w
  = CreateIs.cached_query provider (Spec.key_of k title year)
      (Spec.request_of k title year)
      (match k with
       | Spec.Movie => CreateIs.ErrorSearchingMovie title
       | Spec.Tv => CreateIs.ErrorSearchingTv title
       | Spec.Anime => CreateIs.ErrorSearchingAnime title
       end)
      (CreateIs.enter (Spec.call_of k title year) w).
Proof. by destruct k. Qed.

Lemma lookup_hit k title year w r :
  CreateIs.cache w !! Spec.key_of k title year = Some r ->
  Spec.lookup provider k title year w
  = (Some r, CreateIs.enter (Spec.call_of k title year) w).
Proof.
  intros H. rewrite lookup_unfold. unfold CreateIs.cached_query.
  cbn [CreateIs.enter CreateIs.cache]. by rewrite H.
Qed.

Lemma lookup_miss_found k title year w r rest :
  CreateIs.cache w !! Spec.key_of k title year = None ->
  provider (CreateIs.sent w) (Spec.request_of k title year)
  = CreateIs.Results (r :: rest) ->
  Spec.lookup provider k title year w
  = (Some r,
     CreateIs.set_cache (<[Spec.key_of k title year := r]> (CreateIs.cache w))
       (CreateIs.send (Spec.request_of k title year)
          (CreateIs.enter (Spec.call_of k title year) w))).
Proof.
  intros H Hp. rewrite lookup_unfold. unfold CreateIs.cached_query.
  cbn [CreateIs.enter CreateIs.cache CreateIs.sent]. by rewrite H, Hp.
Qed.

Lemma lookup_miss_sends k title year w :
  CreateIs.cache w !! Spec.key_of k title year = None ->
  CreateIs.sent (snd (Spec.lookup provider k title year w))
  = CreateIs.sent w ++ [Spec.request_of k title year].
Proof.
  intros H. rewrite lookup_unfold. unfold CreateIs.cached_query.
  cbn [CreateIs.enter CreateIs.cache CreateIs.sent]. rewrite H.
  destruct (provider _ _) as [|[|r rs]]; done.
Qed.

Lemma lookup_miss_nothing k title year w :
  CreateIs.cache w !! Spec.key_of k title year = None ->
  provider (CreateIs.sent w) (Spec.request_of k title year) = CreateIs.Failed
  \/ provider (CreateIs.sent w) (Spec.request_of k title year) = CreateIs.Results [] ->
  fst (Spec.lookup provider k title year w) = None
  /\ CreateIs.cache (snd (Spec.lookup provider k title year w)) = CreateIs.cache w.
Proof.
  intros H Hp. rewrite lookup_unfold. unfold CreateIs.cached_query.
  cbn [CreateIs.enter CreateIs.cache CreateIs.sent]. rewrite H.
  destruct Hp as [-> | ->]; done.
Qed.

End Memo.

(** C7, as the code has it. Each of the three lookups returns the cached
    entry of its key without sending a request; on a miss it sends its
    request, and stores and returns the first item of a non-empty result;
    a request that fails or returns no item stores nothing, so that the
    next lookup of the same key sends the request again. The key of
    [search_movie] and of [search_tv_show] is made of the call type, the
    title and the year; the key of [search_anime], which takes no year, is
    made of the call type and the title only. *)
Theorem lookups_memoize
  (provider : list CreateIs.request -> CreateIs.request -> CreateIs.response)
  (k : Spec.kind) (title : str) (year : option Z) (w : CreateIs.world) :
  let key := Spec.key_of k title year in
  let req := Spec.request_of k title year in
  let entered := CreateIs.enter (Spec.call_of k title year) in
  let after := snd (Spec.lookup provider k title year w) in
  (forall r,
      CreateIs.cache w !! key = Some r ->
      Spec.lookup provider k title year w = (Some r, entered w))
  /\ (forall r rest,
      CreateIs.cache w !! key = None ->
      provider (CreateIs.sent w) req = CreateIs.Results (r :: rest) ->
      Spec.lookup provider k title year w
      = (Some r, CreateIs.set_cache (<[key := r]> (CreateIs.cache w))
                   (CreateIs.send req (entered w)))
      /\ Spec.lookup provider k title year after = (Some r, entered after))
  /\ (CreateIs.cache w !! key = None ->
      provider (CreateIs.sent w) req = CreateIs.Failed
      \/ provider (CreateIs.sent w) req = CreateIs.Results [] ->
      fst (Spec.lookup provider k title year w) = None
      /\ CreateIs.cache after = CreateIs.cache w
      /\ CreateIs.sent (snd (Spec.lookup provider k title year after))
         = CreateIs.sent w ++ [req; req])
  /\ (forall k' title' year',
      key = Spec.key_of k' title' year' ->
      k = k' /\ title = title' /\ (k <> Spec.Anime -> year = year'))
  /\ (forall title' year', Spec.key_of Spec.Anime title' year' = CreateIs.anime_key title').
Proof.
  cbv zeta. split; [|split; [|split; [|split]]].
  - intros r H. by apply lookup_hit.
  - intros r rest H Hp.
    rewrite (lookup_miss_found provider k title year w r rest H Hp).
    split; [done|]. cbn [snd]. apply lookup_hit.
    cbn [CreateIs.set_cache CreateIs.cache]. apply lookup_insert_eq.
  - intros H Hp.
    destruct (lookup_miss_nothing provider k title year w H Hp) as [Hr Hc].
    split; [done|]. split; [done|].
    rewrite lookup_miss_sends by (by rewrite Hc).
    rewrite lookup_miss_sends by done. by rewrite <- app_assoc.
  - intros k' title' year'. apply key_of_inj.
  - done.
Qed.

Lemma lookups_memoize_witness :
  let w := Example.world_with ∅ in
  (Spec.lookup Example.provider_akira Spec.Movie (lit "Akira") (Some 1988) w
   = (Some Example.akira,
      CreateIs.set_cache
        (<[Spec.key_of Spec.Movie (lit "Akira") (Some 1988) := Example.akira]> ∅)
        (CreateIs.send (Spec.request_of Spec.Movie (lit "Akira") (Some 1988))
           (CreateIs.enter (Spec.call_of Spec.Movie (lit "Akira") (Some 1988)) w)))
   /\ Spec.lookup Example.provider_akira Spec.Movie (lit "Akira") (Some 1988)
        (snd (Spec.lookup Example.provider_akira Spec.Movie (lit "Akira") (Some 1988) w))
      = (Some Example.akira,
         CreateIs.enter (Spec.call_of Spec.Movie (lit "Akira") (Some 1988))
           (snd (Spec.lookup Example.provider_akira Spec.Movie (lit "Akira")
                   (Some 1988) w))))
  /\ (fst (Spec.lookup Example.provider_down Spec.Tv (lit "Akira") None w) = None
      /\ CreateIs.cache (snd (Spec.lookup Example.provider_down Spec.Tv (lit "Akira") None w))
         = CreateIs.cache w
      /\ CreateIs.sent
           (snd (Spec.lookup Example.provider_down Spec.Tv (lit "Akira") None
                   (snd (Spec.lookup Example.provider_down Spec.Tv (lit "Akira") None w))))
         = CreateIs.sent w ++ [Spec.request_of Spec.Tv (lit "Akira") None;
                               Spec.request_of Spec.Tv (lit "Akira") None]).
Proof.
  split.
  - refine (proj1 (proj2 (lookups_memoize Example.provider_akira Spec.Movie
                            (lit "Akira") (Some 1988) (Example.world_with ∅)))
              Example.akira [] _ _); reflexivity.
  - refine (proj1 (proj2 (proj2 (lookups_memoize Example.provider_down Spec.Tv
                                   (lit "Akira") None (Example.world_with ∅))))
              _ _); [reflexivity | left; reflexivity].
Defined.

(** C7 fails as stated for [search_anime]: its key has no year in it, so
    the anime lookups for one title and two different years share one
    cache entry, and the second is answered from the cache. *)
Lemma anime_key_ignores_year :
  let w := Example.world_with ∅ in
  let w1 := snd (Spec.lookup Example.provider_akira Spec.Anime (lit "Akira") (Some 1988) w) in
  Spec.key_of Spec.Anime (lit "Akira") (Some 1988) = lit "anime_Akira"
  /\ Spec.key_of Spec.Anime (lit "Akira") (Some 1999) = lit "anime_Akira"
  /\ CreateIs.sent w1 = [CreateIs.PostAnime (lit "Akira")]
  /\ fst (Spec.lookup Example.provider_akira Spec.Anime (lit "Akira") (Some 1999) w1)
     = Some Example.akira
  /\ CreateIs.sent
       (snd (Spec.lookup Example.provider_akira Spec.Anime (lit "Akira") (Some 1999) w1))
     = [CreateIs.PostAnime (lit "Akira")].
Proof. repeat split; vm_compute; reflexivity. Qed.

(* ===================================================================== *)
(** ** When the sanitizer tool's [sanitize_filename] is idempotent *)
(* ===================================================================== *)

Section RstripFacts.

Variable p : ascii -> bool.

(** The result of [rstrip] starts as its argument does. *)
Lemma rstrip_head_inv s d r : Py.rstrip p s = d :: r -> exists t, s = d :: t.
Proof.
  destruct s as [|c s]; simpl; [done|].
  destruct (Py.rstrip p s); [destruct (p c)|]; intros [= <- _]; eauto.
Qed.

Lemma rstrip_length s : (length (Py.rstrip p s) <= length s)%nat.
Proof.
  induction s as [|c s IH]; simpl; [done|].
  destruct (Py.rstrip p s); [destruct (p c)|]; simpl in *; lia.
Qed.

Lemma rstrip_no_runs q s : Aux.no_runs q s -> Aux.no_runs q (Py.rstrip p s).
Proof.
  induction s as [|c s IH]; [done|]. intros H.
  change (Py.rstrip p (c :: s)) with
    (match Py.rstrip p s with
     | [] => if p c then [] else [c]
     | r => c :: r
     end).
  destruct (Py.rstrip p s) as [|d r] eqn:E; [by destruct (p c)|].
  destruct (rstrip_head_inv _ _ _ E) as [t ->].
  destruct H as [H1 H2]. split; [done | by apply IH].
Qed.

End RstripFacts.

Lemma is_underscore_eq c : PlexConverter.is_underscore c = true -> c = "_"%char.
Proof. apply Ascii.eqb_eq. Qed.

Lemma collapse_cons c d s :
  collapse (c :: d :: s)
  = if PlexConverter.is_underscore c
    then if PlexConverter.is_underscore d then collapse (d :: s)
         else lit "_" ++ collapse (d :: s)
    else c :: collapse (d :: s).
Proof. reflexivity. Qed.

Lemma collapse_one c : collapse [c] = [c].
Proof.
  cbn [Py.re_sub_plus]. destruct (PlexConverter.is_underscore c) eqn:E; [|done].
  by apply is_underscore_eq in E as ->.
Qed.

(** Collapsing runs of underscores keeps the first character. *)
Lemma collapse_head c s : exists r, collapse (c :: s) = c :: r.
Proof.
  revert c. induction s as [|d s IH]; intros c.
  - rewrite collapse_one. eauto.
  - rewrite collapse_cons.
    destruct (PlexConverter.is_underscore c) eqn:E; [|eauto].
    apply is_underscore_eq in E as ->.
    destruct (PlexConverter.is_underscore d) eqn:Ed; [|simpl; eauto].
    apply is_underscore_eq in Ed as ->. apply IH.
Qed.

Lemma collapse_length s : (length (collapse s) <= length s)%nat.
Proof.
  induction s as [|c [|d s] IH]; [done | by rewrite collapse_one |].
  rewrite collapse_cons.
  destruct (PlexConverter.is_underscore c), (PlexConverter.is_underscore d);
    simpl in *; lia.
Qed.

Lemma collapse_no_runs s : Aux.no_runs PlexConverter.is_underscore (collapse s).
Proof.
  induction s as [|c [|d s] IH]; [done | by rewrite collapse_one |].
  rewrite collapse_cons.
  destruct (collapse_head d s) as [r Hr]. rewrite Hr in IH |- *.
  destruct (PlexConverter.is_underscore c) eqn:E.
  - destruct (PlexConverter.is_underscore d) eqn:Ed; [done|].
    split; [done | exact IH].
  - split; [congruence | exact IH].
Qed.

Lemma collapse_id s : Aux.no_runs PlexConverter.is_underscore s -> collapse s = s.
Proof.
  induction s as [|c [|d s] IH]; [done | intros _; apply collapse_one |].
  intros [H1 H2]. rewrite collapse_cons, (IH H2).
  destruct (PlexConverter.is_underscore c) eqn:E; [|done].
  rewrite (H1 eq_refl). by apply is_underscore_eq in E as ->.
Qed.

(** The sanitizer tool's [sanitize_filename] returns its own result when
    that result does not end in a space or a dot, and only then. *)
Lemma plex_sanitize_idempotent_iff (s : str) :
  let r := PlexConverter.sanitize_filename s in
  PlexConverter.sanitize_filename r = r
  <-> Py.rstrip (Py.char_in (lit " .")) r = r.
Proof.
  intros r. destruct (plex_sanitize_cases s) as [E | [Hne E]]; fold r in E.
  { rewrite E. split; reflexivity. }
  fold r in Hne.
  set (sd := Py.char_in (lit " .")) in *.
  set (x := Py.re_sub_class PlexConverter.invalid_chars (lit "_") s) in *.
  assert (Py.re_sub_class PlexConverter.invalid_chars (lit "_") r = r) as H1.
  { apply re_sub_class_clean. rewrite E.
    apply rstrip_Forall, re_sub_plus_Forall; [by repeat constructor|].
    apply rstrip_Forall, lstrip_Forall, re_sub_class_Forall;
      [by repeat constructor | done]. }
  assert (Py.lstrip sd r = r) as H2.
  { destruct r as [|h t] eqn:Er; [done|]. apply lstrip_id.
    symmetry in E. apply rstrip_head_inv in E as [t1 E].
    unfold Py.strip_chars in E.
    destruct (Py.rstrip sd (Py.lstrip sd x)) as [|c u] eqn:E2; [done|].
    destruct (collapse_head c u) as [u' Hu]. rewrite Hu in E.
    injection E as -> _.
    apply rstrip_head_inv in E2 as [t2 E2]. by apply lstrip_head in E2. }
  assert (Aux.no_runs PlexConverter.is_underscore r) as H3.
  { rewrite E. apply rstrip_no_runs, collapse_no_runs. }
  assert (Py.rstrip PlexConverter.is_underscore r = r) as H4.
  { rewrite E. apply rstrip_idemp. }
  assert (PlexConverter.sanitize_filename r
          = match Py.rstrip PlexConverter.is_underscore (collapse (Py.rstrip sd r)) with
            | [] => lit "unnamed_file"
            | y => y
            end) as Hs.
  { unfold PlexConverter.sanitize_filename, Py.strip_chars. fold sd.
    rewrite H1, H2.
    by generalize (Py.rstrip PlexConverter.is_underscore (collapse (Py.rstrip sd r)));
      intros [|]. }
  split.
  - intros Hfix. rewrite Hs in Hfix.
    pose proof (rstrip_length sd r) as L1.
    pose proof (collapse_length (Py.rstrip sd r)) as L2.
    pose proof (rstrip_length PlexConverter.is_underscore (collapse (Py.rstrip sd r))) as L3.
    destruct (Py.rstrip PlexConverter.is_underscore (collapse (Py.rstrip sd r)))
      as [|c u] eqn:Eu.
    + exfalso. rewrite <- Hfix in Eu. by vm_compute in Eu.
    + rewrite Hfix in L3.
      assert (exists t, r = Py.rstrip sd r ++ t) as [t Ht].
      { clear. induction r as [|a r IH]; simpl; [by exists []|].
        destruct IH as [t Ht].
        destruct (Py.rstrip sd r) as [|b v] eqn:Eb.
        - destruct (sd a); [by exists (a :: r) | exists r; done].
        - exists t. simpl. by rewrite Ht at 1. }
      assert (length t = 0%nat) as Hl.
      { apply (f_equal length) in Ht. rewrite length_app in Ht. lia. }
      destruct t; [|done]. rewrite app_nil_r in Ht. by symmetry.
  - intros Hr. rewrite Hs, Hr, (collapse_id _ H3), H4.
    by destruct r.
Qed.

(* ===================================================================== *)
(** ** More on title and year extraction *)
(* ===================================================================== *)

Lemma replace_no_dot s : ~ In "."%char (Py.replace "." " " s).
Proof.
  unfold Py.replace. intros H. apply in_map_iff in H as (c & E & _).
  destruct (Ascii.eqb c ".") eqn:Ec; [done|].
  apply Ascii.eqb_neq in Ec. done.
Qed.

Lemma strip_no_dot s : ~ In "."%char s -> ~ In "."%char (Py.strip s).
Proof.
  intros H Hin.
  assert (Forall (fun c => c <> "."%char) s) as Hall.
  { apply Forall_forall. intros c Hc ->. by apply H, list_elem_of_In. }
  assert (Forall (fun c => c <> "."%char) (Py.strip s)) as Hall'.
  { unfold Py.strip, Py.strip_chars. by apply rstrip_Forall, lstrip_Forall. }
  rewrite Forall_forall in Hall'. by apply list_elem_of_In, Hall' in Hin.
Qed.

(** The two ways [extract_title_year] ends. *)
Lemma extract_title_year_cases filename :
  (exists t y, 1900 <= y <= 2099
     /\ CreateIs.extract_title_year filename
        = Some (Py.strip (Py.replace "." " " t), Some y))
  \/ (exists t, CreateIs.extract_title_year filename
                = Some (Py.strip (Py.replace "." " " t), None)).
Proof.
  destruct (CreateIs.re_search CreateIs.year_pattern_at (Py.path_stem filename))
    as [j|] eqn:E.
  - left. unfold CreateIs.re_search in E.
    apply re_search_from_Some in E as (k & -> & Hk & Hlt).
    destruct (extract_title_year_match filename k Hk Hlt)
      as (o & a & b & c & d & e & post & y & Hd & Hi & H).
    apply year_pattern_at_inv in Hk
      as (o' & a' & b' & c' & d' & e' & post' & y' & Hd' & _ & _ & Hy & _ & Hi' & _).
    rewrite Hd in Hd'. injection Hd' as <- <- <- <- <- <- <-.
    rewrite Hi in Hi'. injection Hi' as <-. eauto.
  - right. unfold CreateIs.extract_title_year. rewrite E. eauto.
Qed.

(** X1: [extract_title_year] never raises; the title it returns has no dot
    and no white space at either end, and the year it returns, if any, is
    between 1900 and 2099. *)
Theorem extract_title_year_shape (filename : str) :
  exists title year,
    CreateIs.extract_title_year filename = Some (title, year)
    /\ ~ In "."%char title
    /\ Py.strip title = title
    /\ (forall y, year = Some y -> 1900 <= y <= 2099).
Proof.
  destruct (extract_title_year_cases filename) as [(t & y & Hy & ->) | (t & ->)];
    eexists _, _; (split; [reflexivity|]); (split; [|split]).
  - apply strip_no_dot, replace_no_dot.
  - apply strip_chars_idemp.
  - by intros ? [= <-].
  - apply strip_no_dot, replace_no_dot.
  - apply strip_chars_idemp.
  - done.
Qed.

(* ===================================================================== *)
(** ** More on the two sanitizers *)
(* ===================================================================== *)

Section Sublists.

Variable p : ascii -> bool.

Lemma lstrip_sublist s : Py.lstrip p s `sublist_of` s.
Proof.
  induction s as [|c s IH]; simpl; [constructor|].
  destruct (p c); [by constructor | done].
Qed.

Lemma rstrip_sublist s : Py.rstrip p s `sublist_of` s.
Proof.
  induction s as [|c s IH]; simpl; [constructor|].
  destruct (Py.rstrip p s) as [|d r].
  - destruct (p c); [apply sublist_nil_l|].
    apply sublist_skip, sublist_nil_l.
  - by apply sublist_skip.
Qed.

Lemma re_sub_class_erase_sublist s : Py.re_sub_class p [] s `sublist_of` s.
Proof.
  unfold Py.re_sub_class. induction s as [|c s IH]; simpl; [constructor|].
  destruct (p c); simpl; [by constructor | by apply sublist_skip].
Qed.

Lemma re_sub_class_length (u : ascii) s :
  length (Py.re_sub_class p [u] s) = length s.
Proof.
  unfold Py.re_sub_class. induction s as [|c s IH]; simpl; [done|].
  destruct (p c); simpl; by rewrite IH.
Qed.

Lemma lstrip_length s : (length (Py.lstrip p s) <= length s)%nat.
Proof. apply sublist_length, lstrip_sublist. Qed.

End Sublists.

(** X3: the renamer's [sanitize_filename] only removes characters, keeping
    the others in their order, and its result has no white space at
    either end. *)
Theorem renamer_sanitize_trimmed (s : str) :
  CreateIs.sanitize_filename s `sublist_of` s
  /\ Py.strip (CreateIs.sanitize_filename s) = CreateIs.sanitize_filename s.
Proof.
  unfold CreateIs.sanitize_filename. split.
  - unfold Py.strip, Py.strip_chars.
    etrans; [apply rstrip_sublist|]. etrans; [apply lstrip_sublist|].
    apply re_sub_class_erase_sublist.
  - apply strip_chars_idemp.
Qed.

Lemma plex_sanitize_valid s :
  Forall (fun c => PlexConverter.invalid_chars c = false)
    (PlexConverter.sanitize_filename s).
Proof.
  destruct (plex_sanitize_cases s) as [-> | [_ ->]].
  - apply Forall_forall. intros c Hc. apply list_elem_of_In in Hc.
    cbv in Hc. intuition (subst; reflexivity).
  - apply rstrip_Forall, re_sub_plus_Forall; [by repeat constructor|].
    apply rstrip_Forall, lstrip_Forall, re_sub_class_Forall;
      [by repeat constructor | done].
Qed.

Lemma plex_sanitize_no_leading s :
  Py.lstrip (Py.char_in (lit " .")) (PlexConverter.sanitize_filename s)
  = PlexConverter.sanitize_filename s.
Proof.
  destruct (plex_sanitize_cases s) as [-> | [Hne E]]; [reflexivity|].
  destruct (PlexConverter.sanitize_filename s) as [|h t]; [done|].
  apply lstrip_id. symmetry in E. apply rstrip_head_inv in E as [t1 E].
  unfold Py.strip_chars in E.
  destruct (Py.rstrip _ (Py.lstrip _ _)) as [|c u] eqn:E2; [done|].
  destruct (collapse_head c u) as [u' Hu]. rewrite Hu in E.
  injection E as -> _.
  apply rstrip_head_inv in E2 as [t2 E2]. by apply lstrip_head in E2.
Qed.

(** X14: the shape of a name returned by the sanitizer tool's
    [sanitize_filename]: it does not start with a space or a dot, has no
    two underscores in a row and does not end with an underscore. *)
Theorem plex_sanitize_shape (s : str) :
  let r := PlexConverter.sanitize_filename s in
  Py.lstrip (Py.char_in (lit " .")) r = r
  /\ Aux.no_runs PlexConverter.is_underscore r
  /\ Py.rstrip PlexConverter.is_underscore r = r.
Proof.
  cbv zeta. split; [apply plex_sanitize_no_leading|].
  destruct (plex_sanitize_cases s) as [-> | [_ ->]].
  - split; [|reflexivity]. cbv. intuition discriminate.
  - split; [apply rstrip_no_runs, collapse_no_runs | apply rstrip_idemp].
Qed.

(** X16: the sanitizer tool's [sanitize_filename] never makes a name longer,
    unless it returns the placeholder. *)
Theorem plex_sanitize_length (s : str) :
  PlexConverter.sanitize_filename s = lit "unnamed_file"
  \/ (length (PlexConverter.sanitize_filename s) <= length s)%nat.
Proof.
  destruct (plex_sanitize_cases s) as [E | [_ ->]]; [by left | right].
  etrans; [apply rstrip_length|]. etrans; [apply collapse_length|].
  unfold Py.strip_chars. etrans; [apply rstrip_length|].
  etrans; [apply lstrip_length|].
  change (lit "_") with ["_"%char]. by rewrite re_sub_class_length.
Qed.

(** X15: the names the sanitizer tool's [sanitize_filename] leaves as they
    are: the non-empty names without an invalid character, without a
    space or dot at either end, without two underscores in a row and
    without an underscore at the end. *)
Theorem plex_sanitize_fixed_points (s : str) :
  PlexConverter.sanitize_filename s = s
  <-> s <> []
      /\ Forall (fun c => PlexConverter.invalid_chars c = false) s
      /\ Py.strip_chars (Py.char_in (lit " .")) s = s
      /\ Aux.no_runs PlexConverter.is_underscore s
      /\ Py.rstrip PlexConverter.is_underscore s = s.
Proof.
  split.
  - intros E.
    pose proof (plex_sanitize_valid s) as Hv.
    pose proof (plex_sanitize_no_leading s) as Hl.
    pose proof (plex_sanitize_idempotent_iff s) as Hi. cbv zeta in Hi.
    destruct (plex_sanitize_cases s) as [Hu | [Hne Hr]].
    + rewrite E in Hu. subst s. repeat split; try reflexivity; done.
    + assert (Aux.no_runs PlexConverter.is_underscore (PlexConverter.sanitize_filename s)
              /\ Py.rstrip PlexConverter.is_underscore (PlexConverter.sanitize_filename s)
                 = PlexConverter.sanitize_filename s) as [Hn Hu].
      { rewrite Hr. split; [apply rstrip_no_runs, collapse_no_runs | apply rstrip_idemp]. }
      rewrite E in *. repeat split; try done.
      unfold Py.strip_chars. rewrite Hl. by apply Hi.
  - intros (Hne & Hv & Hs & Hn & Hu).
    unfold PlexConverter.sanitize_filename.
    rewrite (re_sub_class_clean _ _ _ Hv), Hs, (collapse_id _ Hn), Hu.
    by destruct s.
Qed.

(** X17: running the sanitizer tool a second time: on a file that carries a
    sanitized name, [process_file] does nothing and returns [False]
    exactly when that name does not end in a space or a dot. *)
Theorem plex_second_run (fl : Os.flavour) (dir name : str) (dry_run : bool)
  (w : PlexConverter.world) :
  let sanitized := PlexConverter.sanitize_filename name in
  PlexConverter.process_file fl (dir, sanitized) dry_run w = (false, w)
  <-> Py.rstrip (Py.char_in (lit " .")) sanitized = sanitized.
Proof.
  cbv zeta. rewrite <- (plex_sanitize_idempotent_iff name).
  unfold PlexConverter.process_file, Os.name. cbn [snd].
  destruct (bool_decide _) eqn:E.
  - apply bool_decide_eq_true in E. by split.
  - apply bool_decide_eq_false in E. split; [|by intros H; rewrite H in E].
    intros H. exfalso. destruct dry_run.
    + injection H as H. by destruct w.
    + destruct (Os.rename _ _ _ _); [done|].
      injection H as H. apply (f_equal PlexConverter.out) in H.
      simpl in H. apply (f_equal length) in H.
      rewrite length_app in H. simpl in H. lia.
Qed.

(* ===================================================================== *)
(** ** More on formatting *)
(* ===================================================================== *)

(** A value that is not a string. *)
Lemma not_string_cases (v : CreateIs.value) :
  (exists s, v = CreateIs.VStr s) \/ (forall s, v <> CreateIs.VStr s).
Proof. destruct v; eauto. Qed.

(** X4: [format_movie_filename] raises exactly when the [title] or the
    [release_date] of the movie is present and is not a string; a missing
    title is replaced by [Unknown]. *)
Theorem format_movie_filename_raises_iff
  (movie_info : CreateIs.Dict) (original_ext : str) :
  (CreateIs.format_movie_filename movie_info original_ext = None
   <-> (exists v, movie_info !! lit "title" = Some v
                  /\ forall s, v <> CreateIs.VStr s)
       \/ (exists v, movie_info !! lit "release_date" = Some v
                     /\ forall s, v <> CreateIs.VStr s))
  /\ (movie_info !! lit "title" = None ->
      forall release_date,
        movie_info !! lit "release_date" = Some (CreateIs.VStr release_date) ->
        CreateIs.format_movie_filename movie_info original_ext
        = Some (lit "Unknown (" ++ take 4 release_date ++ lit ")" ++ original_ext)).
Proof.
  unfold CreateIs.format_movie_filename. split.
  - destruct (movie_info !! lit "title") as [t|] eqn:Et;
      destruct (movie_info !! lit "release_date") as [d|] eqn:Ed; cbn [default];
      try destruct t; try destruct d;
      (split;
       [ intros H; try discriminate H;
         first [ left; eexists; split; [reflexivity | intros ?; discriminate]
               | right; eexists; split; [reflexivity | intros ?; discriminate] ]
       | intros [(v & E & H) | (v & E & H)]; try reflexivity;
         try discriminate E; injection E as <-; exfalso; by eapply H ]).
  - intros -> d ->. reflexivity.
Qed.

Lemma format_movie_filename_raises_iff_witness :
  CreateIs.format_movie_filename
    (<[lit "release_date" := CreateIs.VStr (lit "1995-12-15")]> ∅) (lit ".mkv")
  = Some (lit "Unknown (1995).mkv").
Proof.
  refine (proj2 (format_movie_filename_raises_iff _ (lit ".mkv")) _
            (lit "1995-12-15") _); reflexivity.
Defined.

(** A name is its stem followed by its suffix. *)
Lemma name_stem_suffix name : Py.name_stem name ++ Py.name_suffix name = name.
Proof.
  unfold Py.name_stem, Py.name_suffix.
  destruct (_ && _); [apply take_drop | apply app_nil_r].
Qed.

(** X5: the renamer keeps the extension: the new name [find_name] computes
    ends with the suffix of the old name, which is the part of the old
    name after its stem. *)
Theorem renamer_keeps_extension
  (provider : list CreateIs.request -> CreateIs.request -> CreateIs.response)
  (file_path : Os.path) (w w' : CreateIs.world) (new_name : str) :
  CreateIs.find_name provider file_path w = (CreateIs.Named new_name, w') ->
  (exists base, new_name = base ++ Os.suffix file_path)
  /\ Os.name file_path = Py.name_stem (Os.name file_path) ++ Os.suffix file_path.
Proof.
  intros H. split; [|symmetry; apply name_stem_suffix].
  unfold CreateIs.find_name in H.
  destruct (CreateIs.extract_title_year _) as [[title year]|]; [|done].
  destruct (CreateIs.search_movie provider title year w) as [movie w1].
  destruct (CreateIs.if_truthy movie) as [m|].
  - unfold CreateIs.format_movie_filename in H.
    destruct (default _ (m !! lit "release_date")); try done.
    destruct (default _ (m !! lit "title")); try done.
    injection H as <- _.
    match goal with
    | |- exists base, ?x = _ => change (Os.suffix file_path `suffix_of` x)
    end.
    repeat first [apply suffix_app_r | apply suffix_cons_r]. done.
  - destruct (CreateIs.search_tv_show provider title year w1) as [tv w2].
    destruct (CreateIs.if_truthy tv) as [t|]; [|done].
    destruct (t !! lit "name") as [[]|]; try done.
    injection H as <- _.
    match goal with
    | |- exists base, ?x = _ => change (Os.suffix file_path `suffix_of` x)
    end.
    repeat first [apply suffix_app_r | apply suffix_cons_r]. done.
Qed.

Lemma renamer_keeps_extension_witness :
  (exists base, lit "Heat (1995).mkv" = base ++ lit ".mkv")
  /\ lit "Heat.(1995).mkv" = lit "Heat.(1995)" ++ lit ".mkv".
Proof.
  refine (renamer_keeps_extension Example.provider_heat
            (lit "/media", lit "Heat.(1995).mkv")
            (Example.world_with Example.heat_only_files) _
            (lit "Heat (1995).mkv") _).
  vm_compute. reflexivity.
Defined.

(* ===================================================================== *)
(** ** More on the cache and the requests *)
(* ===================================================================== *)

Section CacheFacts.

Variable provider : list CreateIs.request -> CreateIs.request -> CreateIs.response.
Variable fl : Os.flavour.

(** What a query does to the cache and to the requests sent. *)
Lemma cached_query_effect key req e w :
  let r := CreateIs.cached_query provider key req e w in
  CreateIs.cache (snd r) !! key = fst r
  /\ CreateIs.cache w ⊆ CreateIs.cache (snd r)
  /\ (CreateIs.sent (snd r) = CreateIs.sent w
      \/ CreateIs.sent (snd r) = CreateIs.sent w ++ [req]).
Proof.
  cbv zeta. unfold CreateIs.cached_query.
  destruct (CreateIs.cache w !! key) as [r|] eqn:E; [cbn [fst snd]; auto|].
  destruct (provider _ _) as [|[|r rs]]; cbn; try by auto.
  split; [apply lookup_insert_eq|]. split; [by apply insert_subseteq | auto].
Qed.

Lemma lookup_effect k title year w :
  let r := Spec.lookup provider k title year w in
  CreateIs.cache (snd r) !! Spec.key_of k title year = fst r
  /\ CreateIs.cache w ⊆ CreateIs.cache (snd r)
  /\ (CreateIs.sent (snd r) = CreateIs.sent w
      \/ CreateIs.sent (snd r) = CreateIs.sent w ++ [Spec.request_of k title year]).
Proof.
  cbv zeta. rewrite lookup_unfold.
  apply (cached_query_effect _ _ _ (CreateIs.enter (Spec.call_of k title year) w)).
Qed.

(** What [find_name] does to the cache and to the requests sent. *)
Lemma find_name_effect file_path w title year :
  CreateIs.extract_title_year (Os.name file_path) = Some (title, year) ->
  let w' := snd (CreateIs.find_name provider file_path w) in
  CreateIs.cache w ⊆ CreateIs.cache w'
  /\ exists l, CreateIs.sent w' = CreateIs.sent w ++ l
               /\ l `sublist_of` [CreateIs.GetMovie title (CreateIs.year_param year);
                                  CreateIs.GetTv title (CreateIs.year_param year)].
Proof.
  intros E. cbv zeta. unfold CreateIs.find_name. rewrite E.
  pose proof (lookup_effect Spec.Movie title year w) as (_ & Hc1 & Hs1).
  cbn [Spec.lookup Spec.request_of] in Hc1, Hs1.
  destruct (CreateIs.search_movie provider title year w) as [movie w1].
  cbn [fst snd] in *.
  assert (exists l1, CreateIs.sent w1 = CreateIs.sent w ++ l1
            /\ l1 `sublist_of` [CreateIs.GetMovie title (CreateIs.year_param year)])
    as (l1 & Hl1 & Hsub1).
  { destruct Hs1 as [-> | ->]; [exists []|eexists]; split; try done.
    - by rewrite app_nil_r.
    - apply sublist_nil_l. }
  destruct (CreateIs.if_truthy movie) as [m|].
  - assert (CreateIs.cache w ⊆ CreateIs.cache w1
            /\ exists l, CreateIs.sent w1 = CreateIs.sent w ++ l
                 /\ l `sublist_of` [CreateIs.GetMovie title (CreateIs.year_param year);
                                    CreateIs.GetTv title (CreateIs.year_param year)]) as H.
    { split; [done|]. exists l1. split; [done|].
      etrans; [exact Hsub1|]. apply sublist_skip, sublist_nil_l. }
    by destruct (CreateIs.format_movie_filename m _).
  - pose proof (lookup_effect Spec.Tv title year w1) as (_ & Hc2 & Hs2).
    cbn [Spec.lookup Spec.request_of] in Hc2, Hs2.
    destruct (CreateIs.search_tv_show provider title year w1) as [tv w2].
    cbn [fst snd] in *.
    assert (CreateIs.cache w ⊆ CreateIs.cache w2
            /\ exists l, CreateIs.sent w2 = CreateIs.sent w ++ l
                 /\ l `sublist_of` [CreateIs.GetMovie title (CreateIs.year_param year);
                                    CreateIs.GetTv title (CreateIs.year_param year)]) as H.
    { split; [by etrans|].
      destruct Hs2 as [-> | ->]; rewrite Hl1.
      - exists l1. split; [done|]. etrans; [exact Hsub1|].
        apply sublist_skip, sublist_nil_l.
      - exists (l1 ++ [CreateIs.GetTv title (CreateIs.year_param year)]).
        split; [by rewrite app_assoc|].
        by apply (sublist_app _ [_] _ [_]). }
    destruct (CreateIs.if_truthy tv) as [t|]; [|done].
    by destruct (t !! lit "name") as [[]|].
Qed.

(** After [find_name], [process_file] touches neither the cache nor the
    requests. *)
Lemma process_file_cache_sent file_path dry_run w :
  CreateIs.cache (snd (CreateIs.process_file provider fl file_path dry_run w))
  = CreateIs.cache (snd (CreateIs.find_name provider file_path w))
  /\ CreateIs.sent (snd (CreateIs.process_file provider fl file_path dry_run w))
     = CreateIs.sent (snd (CreateIs.find_name provider file_path w)).
Proof.
  unfold CreateIs.process_file.
  destruct (CreateIs.find_name provider file_path w) as [[new_name| |] w']; [|done..].
  cbn [snd]. destruct dry_run; [done|].
  destruct (Os.exists_ _ _); [done|]. destruct (Os.rename _ _ _ _); done.
Qed.

Lemma process_file_cache_grows file_path dry_run w :
  CreateIs.cache w
  ⊆ CreateIs.cache (snd (CreateIs.process_file provider fl file_path dry_run w)).
Proof.
  destruct (process_file_cache_sent file_path dry_run w) as [-> _].
  destruct (extract_title_year_total (Os.name file_path)) as (title & year & E).
  by destruct (find_name_effect file_path w title year E) as [H _].
Qed.

Lemma process_all_cache_grows fs dry_run w :
  CreateIs.cache w ⊆ CreateIs.cache (CreateIs.process_all provider fl fs dry_run w).
Proof.
  unfold CreateIs.process_all. revert w.
  induction fs as [|f fs IH]; intros w; [done|].
  cbn [foldl]. etrans; [|apply IH]. apply process_file_cache_grows.
Qed.

End CacheFacts.


(** X7: the cache only grows: a lookup, [process_file] and
    [process_directory] keep every entry the cache had, with its value. *)
Theorem cache_grows
  (provider : list CreateIs.request -> CreateIs.request -> CreateIs.response)
  (fl : Os.flavour) (w : CreateIs.world) :
  (forall k title year,
      CreateIs.cache w ⊆ CreateIs.cache (snd (Spec.lookup provider k title year w)))
  /\ (forall file_path dry_run,
      CreateIs.cache w
      ⊆ CreateIs.cache (snd (CreateIs.process_file provider fl file_path dry_run w)))
  /\ (forall listing dry_run,
      CreateIs.cache w
      ⊆ CreateIs.cache (CreateIs.process_directory provider fl listing dry_run w)).
Proof.
  split; [|split].
  - intros k title year.
    by destruct (lookup_effect provider k title year w) as (_ & H & _).
  - intros. apply process_file_cache_grows.
  - intros. apply process_all_cache_grows.
Qed.

(** X8: [process_file] sends at most two requests, after those sent before:
    the movie search and the TV search for the extracted title, in this
    order, each with the extracted year when there is one. *)
Theorem process_file_requests
  (provider : list CreateIs.request -> CreateIs.request -> CreateIs.response)
  (fl : Os.flavour) (file_path : Os.path) (dry_run : bool) (w : CreateIs.world) :
  exists title year l,
    CreateIs.extract_title_year (Os.name file_path) = Some (title, year)
    /\ CreateIs.sent (snd (CreateIs.process_file provider fl file_path dry_run w))
       = CreateIs.sent w ++ l
    /\ l `sublist_of` [CreateIs.GetMovie title (CreateIs.year_param year);
                       CreateIs.GetTv title (CreateIs.year_param year)]
    /\ (forall y, year = Some y -> CreateIs.year_param year = Some (Py.str_of_int y)).
Proof.
  assert (exists title year,
             CreateIs.extract_title_year (Os.name file_path) = Some (title, year)
             /\ forall y, year = Some y -> 1900 <= y <= 2099)
    as (title & year & E & Hy).
  { destruct (extract_title_year_cases (Os.name file_path))
      as [(t & y & Hy & E) | (t & E)]; eexists _, _; (split; [exact E|]).
    - by intros ? [= <-].
    - done. }
  destruct (find_name_effect provider file_path w title year E) as (_ & l & Hl & Hsub).
  exists title, year, l. split; [done|].
  destruct (process_file_cache_sent provider fl file_path dry_run w) as [_ ->].
  repeat split; try done.
  intros y ->. specialize (Hy y eq_refl). simpl.
  destruct (y =? 0) eqn:E0; [lia | done].
Qed.

(* ===================================================================== *)
(** ** What the tools do to the files *)
(* ===================================================================== *)

Lemma same_contents_refl m : Aux.same_contents m m.
Proof. by split. Qed.

Lemma same_contents_trans m1 m2 m3 :
  Aux.same_contents m1 m2 -> Aux.same_contents m2 m3 -> Aux.same_contents m1 m3.
Proof.
  intros [S1 C1] [S2 C2]. split; [congruence|].
  intros c. by rewrite C2, C1.
Qed.

(** Moving a file to a free path keeps the contents. *)
Lemma move_same_contents (m : Os.fs) (src dst : Os.path) content :
  m !! src = Some content -> m !! dst = None ->
  Aux.same_contents m (<[dst := content]> (delete src m)).
Proof.
  intros Hs Hd.
  assert (src <> dst) as Hne by congruence.
  split.
  - rewrite map_size_insert_None by (by rewrite lookup_delete_ne).
    rewrite map_size_delete_Some by eauto.
    assert (size m <> 0%nat) by (eapply map_size_ne_0_lookup_2; eauto). lia.
  - intros c. split; intros [p Hp].
    + destruct (decide (p = dst)) as [->|Hpd].
      * rewrite lookup_insert_eq in Hp. injection Hp as <-. eauto.
      * rewrite lookup_insert_ne in Hp by done.
        destruct (decide (p = src)) as [->|Hps].
        -- by rewrite lookup_delete_eq in Hp.
        -- rewrite lookup_delete_ne in Hp by done. eauto.
    + destruct (decide (p = src)) as [->|Hps].
      * exists dst. rewrite lookup_insert_eq. congruence.
      * exists p. rewrite lookup_insert_ne by congruence.
        by rewrite lookup_delete_ne.
Qed.

(** A rename onto a path that is free, whatever the platform. *)
Lemma rename_free (fl : Os.flavour) (src dst : Os.path) (m m' : Os.fs) :
  m !! dst = None -> Os.rename fl src dst m = Some m' ->
  exists content, m !! src = Some content
                  /\ m' = <[dst := content]> (delete src m).
Proof.
  intros Hd. unfold Os.rename.
  destruct (m !! src) as [c|] eqn:Hs; [|done].
  rewrite bool_decide_eq_false_2 by congruence.
  rewrite Hd. destruct fl; intros [= <-]; eauto.
Qed.

Section RenamerFiles.

Variable provider : list CreateIs.request -> CreateIs.request -> CreateIs.response.
Variable fl : Os.flavour.

(** The three ways [process_file] ends, seen from the files. *)
Lemma process_file_files file_path dry_run w :
  let r := CreateIs.process_file provider fl file_path dry_run w in
  (CreateIs.files (snd r) = CreateIs.files w
   /\ (fst r = true -> dry_run = true))
  \/ (dry_run = false /\ fst r = true
      /\ exists new_name content,
          fst (CreateIs.find_name provider file_path w) = CreateIs.Named new_name
          /\ CreateIs.files w !! file_path = Some content
          /\ CreateIs.files w !! Os.join (Os.parent file_path) new_name = None
          /\ CreateIs.files (snd r)
             = <[Os.join (Os.parent file_path) new_name := content]>
                 (delete file_path (CreateIs.files w))).
Proof.
  cbv zeta. pose proof (find_name_files provider file_path w) as Hf.
  unfold CreateIs.process_file.
  destruct (CreateIs.find_name provider file_path w) as [[new_name| |] w'];
    cbn [fst snd] in *; [|left; by split..].
  destruct dry_run; [left; by split|].
  unfold Os.exists_. destruct (bool_decide _) eqn:Ex; [left; by split|].
  apply bool_decide_eq_false in Ex. rewrite <- eq_None_not_Some in Ex.
  destruct (Os.rename _ _ _ _) as [files'|] eqn:Er; [|left; by split].
  right. apply (rename_free _ _ _ _ _ Ex) in Er as (content & Hs & ->).
  rewrite Hf in *. split; [done|]. split; [done|]. eauto 10.
Qed.



End RenamerFiles.

(** X10: when the renamer's [process_file] returns [False] it leaves the
    files as they are. *)
Theorem renamer_failure_keeps_files
  (provider : list CreateIs.request -> CreateIs.request -> CreateIs.response)
  (fl : Os.flavour) (file_path : Os.path) (dry_run : bool) (w : CreateIs.world) :
  fst (CreateIs.process_file provider fl file_path dry_run w) = false ->
  CreateIs.files (snd (CreateIs.process_file provider fl file_path dry_run w))
  = CreateIs.files w.
Proof.
  intros H.
  destruct (process_file_files provider fl file_path dry_run w)
    as [[E _] | (_ & Ht & _)]; [done | congruence].
Qed.

Lemma renamer_failure_keeps_files_witness :
  CreateIs.files
    (snd (CreateIs.process_file Example.provider_down Os.Posix
            (lit "/media", lit "Heat.(1995).mkv") false
            (Example.world_with Example.heat_only_files)))
  = Example.heat_only_files.
Proof.
  apply (renamer_failure_keeps_files Example.provider_down Os.Posix
           (lit "/media", lit "Heat.(1995).mkv") false
           (Example.world_with Example.heat_only_files)).
  vm_compute. reflexivity.
Defined.



(** X13: a directory without a file of one of the four video extensions is
    left alone: no lookup, no output, no rename. *)
Theorem process_directory_no_media
  (provider : list CreateIs.request -> CreateIs.request -> CreateIs.response)
  (fl : Os.flavour) (listing : list Os.path) (dry_run : bool) (w : CreateIs.world) :
  (forall f, f ∈ listing ->
             Os.is_file (CreateIs.files w) f = false
             \/ Py.lower (Os.suffix f) ∉ CreateIs.exts) ->
  CreateIs.process_directory provider fl listing dry_run w = w.
Proof.
  intros H. unfold CreateIs.process_directory, CreateIs.collect.
  replace (filter _ listing) with (@nil Os.path); [done|].
  symmetry. induction listing as [|f l IH]; [done|].
  rewrite filter_cons_False.
  - apply IH. intros g Hg. apply H. by right.
  - intros [H1 H2]. destruct (H f) as [H3 | H3]; [by left | congruence | done].
Qed.

Lemma process_directory_no_media_witness :
  CreateIs.process_directory Example.provider_heat Os.Posix
    [(lit "/media", lit "notes.txt"); (lit "/media", lit "Heat.(1995).mkv")] false
    (Example.world_with (<[(lit "/media", lit "notes.txt") := 1%nat]> ∅))
  = Example.world_with (<[(lit "/media", lit "notes.txt") := 1%nat]> ∅).
Proof.
  apply process_directory_no_media. intros f Hf.
  apply list_elem_of_In in Hf. destruct Hf as [<- | [<- | []]].
  - right. vm_compute. intros Hin. apply list_elem_of_In in Hin.
    cbv in Hin. intuition discriminate.
  - left. vm_compute. reflexivity.
Defined.

Section PlexFiles.

Variable fl : Os.flavour.

(** The ways the sanitizer tool's [process_file] ends in apply mode. *)
Lemma plex_process_file_apply (file_path : Os.path) w :
  let r := PlexConverter.process_file fl file_path false w in
  let target := Os.join (Os.parent file_path)
                  (PlexConverter.sanitize_filename (Os.name file_path)) in
  (fst r = false /\ PlexConverter.files (snd r) = PlexConverter.files w
   /\ (PlexConverter.sanitize_filename (Os.name file_path) = Os.name file_path
       \/ PlexConverter.files w !! file_path = None
       \/ fl = Os.Windows /\ is_Some (PlexConverter.files w !! target)))
  \/ (fst r = true
      /\ PlexConverter.sanitize_filename (Os.name file_path) <> Os.name file_path
      /\ (fl = Os.Posix \/ PlexConverter.files w !! target = None)
      /\ exists content,
          PlexConverter.files w !! file_path = Some content
          /\ PlexConverter.files (snd r)
             = <[target := content]> (delete file_path (PlexConverter.files w))).
Proof.
  cbv zeta. destruct file_path as [dir name].
  unfold PlexConverter.process_file, Os.rename, Os.join, Os.name, Os.parent.
  cbn [fst snd].
  destruct (bool_decide (name = _)) eqn:E.
  { apply bool_decide_eq_true in E. left. cbn. auto. }
  apply bool_decide_eq_false in E.
  destruct (PlexConverter.files w !! (dir, name)) as [c|] eqn:Hs;
    [|left; cbn; auto].
  rewrite bool_decide_eq_false_2 by (intros [= H]; by apply E).
  destruct (PlexConverter.files w !! (dir, PlexConverter.sanitize_filename name))
    as [c'|] eqn:Hd; destruct fl; cbn [fst snd PlexConverter.files PlexConverter.set_files
                                       PlexConverter.print].
  - right. repeat split; try done; eauto.
  - left. repeat split; try done. right. right. eauto.
  - right. repeat split; try done; eauto.
  - right. repeat split; try done; eauto.
Qed.

Lemma plex_process_file_same_contents_windows (file_path : Os.path) dry_run w :
  fl = Os.Windows ->
  Aux.same_contents (PlexConverter.files w)
    (PlexConverter.files (snd (PlexConverter.process_file fl file_path dry_run w))).
Proof.
  intros Hfl. destruct dry_run.
  - rewrite plex_process_file_dry_run_files. apply same_contents_refl.
  - destruct (plex_process_file_apply file_path w)
      as [(_ & -> & _) | (_ & _ & [Hp | Hd] & c & Hs & ->)].
    + apply same_contents_refl.
    + congruence.
    + by apply move_same_contents.
Qed.

Lemma plex_process_listing_same_contents_windows listing dry_run n w :
  fl = Os.Windows ->
  Aux.same_contents (PlexConverter.files w)
    (PlexConverter.files (snd (PlexConverter.process_listing fl listing dry_run n w))).
Proof.
  intros Hfl. revert n w.
  induction listing as [|f listing IH]; intros n w; [apply same_contents_refl|].
  cbn [PlexConverter.process_listing].
  destruct (Os.is_file _ _); [|apply IH].
  pose proof (plex_process_file_same_contents_windows f dry_run w Hfl) as H.
  destruct (PlexConverter.process_file fl f dry_run w) as [ok w'].
  eapply same_contents_trans; [exact H | apply IH].
Qed.

Lemma plex_process_listing_bounds listing dry_run n w :
  n <= fst (PlexConverter.process_listing fl listing dry_run n w)
    <= n + Z.of_nat (length listing).
Proof.
  revert n w. induction listing as [|f listing IH]; intros n w.
  - simpl. lia.
  - cbn [PlexConverter.process_listing length].
    destruct (Os.is_file _ _).
    + destruct (PlexConverter.process_file fl f dry_run w) as [[] w'].
      * specialize (IH (n + 1) w'). lia.
      * specialize (IH n w'). lia.
    + specialize (IH n w). lia.
Qed.

End PlexFiles.



(** X19: when the sanitizer tool's [process_file] returns [False] it leaves
    the files as they are. *)
Theorem plex_failure_keeps_files (fl : Os.flavour) (file_path : Os.path)
  (dry_run : bool) (w : PlexConverter.world) :
  fst (PlexConverter.process_file fl file_path dry_run w) = false ->
  PlexConverter.files (snd (PlexConverter.process_file fl file_path dry_run w))
  = PlexConverter.files w.
Proof.
  intros H. destruct dry_run; [apply plex_process_file_dry_run_files|].
  destruct (plex_process_file_apply fl file_path w)
    as [(_ & E & _) | (Ht & _)]; [done | congruence].
Qed.

Lemma plex_failure_keeps_files_witness :
  PlexConverter.files
    (snd (PlexConverter.process_file Os.Windows (lit "/media", lit "a?b") false
            (PlexConverter.World Example.clash_files [])))
  = Example.clash_files.
Proof.
  apply (plex_failure_keeps_files Os.Windows (lit "/media", lit "a?b") false
           (PlexConverter.World Example.clash_files [])).
  vm_compute. reflexivity.
Defined.

(** X20: where [os.rename] refuses an existing target (Windows), the sanitizer
    tool never loses a file: after [process_file] and after
    [process_directory], in either mode, there are as many files as before
    and every content is still there. *)
Theorem plex_windows_never_loses_files (dry_run : bool) (w : PlexConverter.world) :
  (forall file_path,
      Aux.same_contents (PlexConverter.files w)
        (PlexConverter.files
           (snd (PlexConverter.process_file Os.Windows file_path dry_run w))))
  /\ (forall rglob iterdir recursive,
      Aux.same_contents (PlexConverter.files w)
        (PlexConverter.files
           (snd (PlexConverter.process_directory Os.Windows rglob iterdir
                   dry_run recursive w)))).
Proof.
  split.
  - intros. by apply plex_process_file_same_contents_windows.
  - intros rglob iterdir recursive. unfold PlexConverter.process_directory.
    pose proof (plex_process_listing_same_contents_windows Os.Windows
                  (if recursive then rglob else iterdir) dry_run 0 w eq_refl) as H.
    by destruct (PlexConverter.process_listing _ _ _ _ _) as [n w'].
Qed.

(** X21: the count returned by the sanitizer tool's [process_directory] lies
    between 0 and the number of paths the enumeration yields. *)
Theorem plex_processed_count_bounds (fl : Os.flavour) (rglob iterdir : list Os.path)
  (dry_run recursive : bool) (w : PlexConverter.world) :
  let listing := if recursive then rglob else iterdir in
  let count := fst (fst (PlexConverter.process_directory fl rglob iterdir
                           dry_run recursive w)) in
  0 <= count <= Z.of_nat (length listing).
Proof.
  cbv zeta. unfold PlexConverter.process_directory.
  pose proof (plex_process_listing_bounds fl
                (if recursive then rglob else iterdir) dry_run 0 w) as H.
  by destruct (PlexConverter.process_listing _ _ _ _ _) as [n w'].
Qed.

(* ===================================================================== *)
(** ** Dry runs as previews *)
(* ===================================================================== *)



(** X23: whatever a tool renames in apply mode, its dry run from the same
    state reports: when [process_file] returns [True] in apply mode it
    returns [True] in dry-run mode. *)
Theorem apply_implies_dry_run :
  (forall provider fl file_path w,
      fst (CreateIs.process_file provider fl file_path false w) = true ->
      fst (CreateIs.process_file provider fl file_path true w) = true)
  /\ (forall fl file_path w,
      fst (PlexConverter.process_file fl file_path false w) = true ->
      fst (PlexConverter.process_file fl file_path true w) = true).
Proof.
  split.
  - intros provider fl file_path w. unfold CreateIs.process_file.
    by destruct (CreateIs.find_name provider file_path w) as [[n| |] w'].
  - intros fl file_path w. unfold PlexConverter.process_file.
    by destruct (bool_decide _).
Qed.

Lemma apply_implies_dry_run_witness :
  fst (CreateIs.process_file Example.provider_heat Os.Posix
         (lit "/media", lit "Heat.(1995).mkv") true
         (Example.world_with Example.heat_only_files)) = true
  /\ fst (PlexConverter.process_file Os.Posix (lit "/media", lit "a?b") true
            (PlexConverter.World Example.query_files [])) = true.
Proof.
  split.
  - apply (proj1 apply_implies_dry_run). vm_compute. reflexivity.
  - apply (proj2 apply_implies_dry_run). vm_compute. reflexivity.
Defined.

(* ===================================================================== *)
(** ** Working from the cache *)
(* ===================================================================== *)

Lemma find_name_cached provider provider' (file_path : Os.path) w title year m :
  CreateIs.extract_title_year (Os.name file_path) = Some (title, year) ->
  CreateIs.cache w !! CreateIs.movie_key title year = Some m -> m <> ∅ ->
  CreateIs.find_name provider file_path w = CreateIs.find_name provider' file_path w
  /\ CreateIs.sent (snd (CreateIs.find_name provider file_path w)) = CreateIs.sent w.
Proof.
  intros E Hc Hm. unfold CreateIs.find_name. rewrite E.
  pose proof (lookup_hit provider Spec.Movie title year w m Hc) as H1.
  pose proof (lookup_hit provider' Spec.Movie title year w m Hc) as H2.
  cbn [Spec.lookup Spec.call_of] in H1, H2. rewrite H1, H2.
  cbn [CreateIs.if_truthy]. rewrite bool_decide_eq_false_2 by done.
  by destruct (CreateIs.format_movie_filename m _).
Qed.

(** X9: when the cache holds a non-empty movie entry for the title and year of
    a file, [process_file] sends no request and does not depend on what
    the providers would answer. *)
Theorem cached_movie_needs_no_provider
  (provider provider' : list CreateIs.request -> CreateIs.request -> CreateIs.response)
  (fl : Os.flavour) (file_path : Os.path) (dry_run : bool) (w : CreateIs.world)
  (title : str) (year : option Z) (m : CreateIs.Dict) :
  CreateIs.extract_title_year (Os.name file_path) = Some (title, year) ->
  CreateIs.cache w !! CreateIs.movie_key title year = Some m ->
  m <> ∅ ->
  CreateIs.process_file provider fl file_path dry_run w
  = CreateIs.process_file provider' fl file_path dry_run w
  /\ CreateIs.sent (snd (CreateIs.process_file provider fl file_path dry_run w))
     = CreateIs.sent w.
Proof.
  intros E Hc Hm.
  destruct (find_name_cached provider provider' file_path w title year m E Hc Hm)
    as [Heq Hs].
  split.
  - unfold CreateIs.process_file. by rewrite Heq.
  - destruct (process_file_cache_sent provider fl file_path dry_run w) as [_ ->].
    exact Hs.
Qed.

Lemma cached_movie_needs_no_provider_witness :
  CreateIs.process_file Example.provider_down Os.Posix
    (lit "/media", lit "Heat.(1995).mkv") false Example.heat_cached_world
  = CreateIs.process_file Example.provider_heat Os.Posix
      (lit "/media", lit "Heat.(1995).mkv") false Example.heat_cached_world
  /\ CreateIs.sent
       (snd (CreateIs.process_file Example.provider_down Os.Posix
               (lit "/media", lit "Heat.(1995).mkv") false Example.heat_cached_world))
     = [].
Proof.
  refine (cached_movie_needs_no_provider Example.provider_down Example.provider_heat
            Os.Posix (lit "/media", lit "Heat.(1995).mkv") false
            Example.heat_cached_world (lit "Heat") (Some 1995) Example.heat _ _ _).
  - vm_compute. reflexivity.
  - vm_compute. reflexivity.
  - intros H. apply (f_equal (fun d : CreateIs.Dict => d !! lit "title")) in H.
    vm_compute in H. discriminate H.
Defined.
